(** * The dashboard query service ([app/lib/data.ts])

    A shallow embedding of the eight read operations of the query service
    and of the values they exchange with the database client.

    Conventions of the embedding:
    - a JavaScript [number] that holds an amount in minor units or a row
      count is a [Z]; the quotient of [fetchInvoiceById] is a [Double], an
      IEEE 754 binary64 number, and its division is the binary64 one;
    - a value that may be [null] or [undefined] is an [option];
    - an awaited request is [Settled]: fulfilled with a response object or
      rejected with a reason;
    - [throw] and [try]/[catch] are the error monad [Exn]; [console.error]
      appends to the [console] of the operation's [Outcome]. *)

From Stdlib Require Import ZArith QArith Qround Ascii SpecFloat.
From stdpp Require Import base option list strings sorting pretty.

#[local] Open Scope Z_scope.

(** ** Values thrown and caught *)

Module PostgrestError.
Record t := mk {
  message : string;
  details : string;
  hint : string;
  code : string }.
End PostgrestError.

(** What a [catch] clause can receive: the client's error object thrown as
    it is by [if (error) throw error], the reason of a rejected request, the
    [TypeError] of a property read on [null] or [undefined], and the
    [new Error(message)] every operation raises from its [catch]. *)
Inductive Thrown :=
  | Postgrest (e : PostgrestError.t)
  | Rejection (reason : string)
  | TypeError (message : string)
  | Error (message : string).

Definition Exn (A : Type) : Type := Thrown + A.

Definition throw {A} (e : Thrown) : Exn A := inl e.

#[global] Instance Exn_ret : MRet Exn := λ A a, inr a.
#[global] Instance Exn_bind : MBind Exn := λ A B f m,
  match m with
  | inl e => inl e
  | inr a => f a
  end.

(** One line of [console.error(label, value)]. *)
Definition LogLine : Type := string * Thrown.

Record Outcome (A : Type) := mkOutcome {
  console : list LogLine;
  result : Exn A }.
Arguments mkOutcome {A} _ _.
Arguments console {A} _.
Arguments result {A} _.

(** [try { body } catch (error) { console.error("Database Error:", error);
    throw new Error(message); }] *)
Definition try_catch {A} (message : string) (body : Exn A) : Outcome A :=
  match body with
  | inr a => mkOutcome [] (inr a)
  | inl error => mkOutcome [("Database Error:", error)] (inl (Error message))
  end.

(** ** The database client *)

Record Response (T : Type) := mkResponse {
  data : option T;
  error : option PostgrestError.t;
  count : option Z }.
Arguments mkResponse {T} _ _ _.
Arguments data {T} _.
Arguments error {T} _.
Arguments count {T} _.

Inductive Settled (A : Type) :=
  | Fulfilled (value : A)
  | Rejected (reason : Thrown).
Arguments Fulfilled {A} _.
Arguments Rejected {A} _.

Definition await {A} (p : Settled A) : Exn A :=
  match p with
  | Fulfilled value => inr value
  | Rejected reason => inl reason
  end.

(** [await Promise.all([p1, p2, p3])]: the three requests are already
    issued; the join is fulfilled with the three values when all are, and is
    rejected as soon as one is.  Which reason wins when several reject
    depends on timing; the embedding takes the leftmost, and that reason
    only ever reaches the console. *)
Definition Promise_all3 {A B C} (p1 : Settled A) (p2 : Settled B)
    (p3 : Settled C) : Exn (A * B * C) :=
  v1 ← await p1; v2 ← await p2; v3 ← await p3; mret (v1, v2, v3).

(** The request a chain of builder calls describes.  [columns] holds the
    column list of [select] with its white space removed, as the client
    sends it. *)
Module Query.
Record t := mk {
  table : string;
  columns : string;
  count : option string;
  head : bool;
  or_filter : option string;
  eq_filter : option (string * string);
  order_by : option (string * bool);
  range_of : option (Z * Z);
  limit_of : option Z;
  is_single : bool }.

Definition from (table : string) : t :=
  mk table "" None false None None None None None false.

Definition select (columns : string) (q : t) : t :=
  mk (table q) columns None false (or_filter q) (eq_filter q) (order_by q)
     (range_of q) (limit_of q) (is_single q).

(** [select(columns, { count, head })] *)
Definition select_with (columns count : string) (head : bool) (q : t) : t :=
  mk (table q) columns (Some count) head (or_filter q) (eq_filter q)
     (order_by q) (range_of q) (limit_of q) (is_single q).

Definition or (filters : string) (q : t) : t :=
  mk (table q) (columns q) (Query.count q) (Query.head q) (Some filters)
     (eq_filter q) (order_by q) (range_of q) (limit_of q) (is_single q).

Definition eq (column value : string) (q : t) : t :=
  mk (table q) (columns q) (Query.count q) (Query.head q) (or_filter q)
     (Some (column, value)) (order_by q) (range_of q) (limit_of q)
     (is_single q).

(** [order(column)] sorts ascending; [order(column, { ascending })]. *)
Definition order_with (column : string) (ascending : bool) (q : t) : t :=
  mk (table q) (columns q) (Query.count q) (Query.head q) (or_filter q)
     (eq_filter q) (Some (column, ascending)) (range_of q) (limit_of q)
     (is_single q).

Definition order (column : string) : t → t := order_with column true.

Definition range (from to : Z) (q : t) : t :=
  mk (table q) (columns q) (Query.count q) (Query.head q) (or_filter q)
     (eq_filter q) (order_by q) (Some (from, to)) (limit_of q) (is_single q).

Definition limit (n : Z) (q : t) : t :=
  mk (table q) (columns q) (Query.count q) (Query.head q) (or_filter q)
     (eq_filter q) (order_by q) (range_of q) (Some n) (is_single q).

Definition single (q : t) : t :=
  mk (table q) (columns q) (Query.count q) (Query.head q) (or_filter q)
     (eq_filter q) (order_by q) (range_of q) (limit_of q) true.
End Query.

(** Method chaining: [q ▷ f ▷ g] is [q.f(..).g(..)]. *)
Notation "q ▷ f" := (f q) (at level 45, left associativity, only parsing).

(** ** JavaScript numbers

    A JavaScript [number] is an IEEE 754 binary64 value.  [Double] is the
    Standard Library's specification of these values and [Double_div] its
    division, rounded to nearest with ties to even: precision 53, exponents
    up to 1024. *)

Definition Double : Type := spec_float.

(** The number an integer literal or an integer read from the database
    denotes: the integer itself up to [2^53], the nearest binary64 value
    beyond. *)
Definition Double_of_Z (z : Z) : Double := binary_normalize 53 1024 z 0 false.

(** [x / y] *)
Definition Double_div (x y : Double) : Double := SFdiv 53 1024 x y.

(** The rational a finite number stands for; infinities and [NaN] stand for
    none. *)
Definition Double_value (x : Double) : option Q :=
  match x with
  | S754_zero _ => Some 0%Q
  | S754_finite sign mantissa exponent =>
      Some (inject_Z (if sign then Z.neg mantissa else Z.pos mantissa)
            * Qpower 2 exponent)%Q
  | S754_infinity _ | S754_nan => None
  end.

(** ** Rows read and records returned *)

Module Revenue.
Record t := mk { month : string; revenue : Z }.
End Revenue.

(** The embedded [customers (name, email, image_url)] of an invoice row. *)
Module CustomerInfo.
Record t := mk { name : string; image_url : string; email : string }.
End CustomerInfo.

(** A row of [select("amount, customers(name, image_url, email), id")]. *)
Module LatestInvoiceRow.
Record t := mk {
  amount : Z;
  customers : list CustomerInfo.t;
  id : string }.
End LatestInvoiceRow.

Module LatestInvoiceRaw.
Record t := mk {
  id : string;
  amount : Z;
  name : string;
  email : string;
  image_url : string }.
End LatestInvoiceRaw.

(** A row of [select("amount, status")]. *)
Module AmountStatus.
Record t := mk { amount : Z; status : string }.
End AmountStatus.

Module CardData.
Record t := mk {
  numberOfCustomers : Z;
  numberOfInvoices : Z;
  totalPaidInvoices : string;
  totalPendingInvoices : string }.
End CardData.

(** A row of the joined invoice selection of [fetchFilteredInvoices]. *)
Module InvoiceRow.
Record t := mk {
  id : string;
  amount : Z;
  date : string;
  status : string;
  customer_id : string;
  customers : list CustomerInfo.t }.
End InvoiceRow.

Module InvoicesTable.
Record t := mk {
  id : string;
  customer_id : string;
  amount : Z;
  date : string;
  status : string;
  name : string;
  email : string;
  image_url : string }.
End InvoicesTable.

(** The single row of [select("id, customer_id, amount, status")]. *)
Module InvoiceRecord.
Record t := mk {
  id : string;
  customer_id : string;
  amount : Z;
  status : string }.
End InvoiceRecord.

Module InvoiceForm.
Record t := mk {
  id : string;
  customer_id : string;
  amount : Double;
  status : string }.
End InvoiceForm.

Module CustomerField.
Record t := mk { id : string; name : string }.
End CustomerField.

(** The embedded [invoices (id, amount, status)] of a customer row. *)
Module InvoiceBrief.
Record t := mk { id : string; amount : Z; status : string }.
End InvoiceBrief.

Module CustomerRow.
Record t := mk {
  id : string;
  name : string;
  email : string;
  image_url : string;
  invoices : option (list InvoiceBrief.t) }.
End CustomerRow.

Module CustomersTableType.
Record t := mk {
  id : string;
  name : string;
  email : string;
  image_url : string;
  total_invoices : Z;
  total_pending : Z;
  total_paid : Z }.
End CustomersTableType.

(** The row type a selection is read at: the client is generic in it, and
    each operation fixes it by the columns it selects.  A [head] request
    carries no rows at all. *)
Inductive Shape :=
  | RevenueRows
  | LatestInvoiceRows
  | HeadOnly
  | AmountStatusRows
  | InvoiceRows
  | SingleInvoice
  | CustomerFields
  | CustomerRows.

Definition payload (s : Shape) : Type :=
  match s with
  | RevenueRows => list Revenue.t
  | LatestInvoiceRows => list LatestInvoiceRow.t
  | HeadOnly => Empty_set
  | AmountStatusRows => list AmountStatus.t
  | InvoiceRows => list InvoiceRow.t
  | SingleInvoice => InvoiceRecord.t
  | CustomerFields => list CustomerField.t
  | CustomerRows => list CustomerRow.t
  end.

(** The [supabase] object: a request, read at a shape, settles. *)
Definition Supabase : Type :=
  ∀ s : Shape, Query.t → Settled (Response (payload s)).

(** ** JavaScript idioms the operations share *)

(** A property read or method call on a value that may be [null] or
    [undefined] ([data.map], [customers[0].name], [data.amount]). *)
Definition member_of {A} (receiver : option A) : Exn A :=
  match receiver with
  | Some a => mret a
  | None => throw (TypeError "Cannot read properties of undefined")
  end.

(** [if (error) throw error;] *)
Definition throw_if_error {T} (response : Response T) : Exn unit :=
  match error response with
  | Some e => throw (Postgrest e)
  | None => mret tt
  end.

(** [Number(x)] at a value that already is a number. *)
Definition Number (x : Z) : Z := x.

(** [Math.ceil] *)
Definition Math_ceil (x : Q) : Z := Qceiling x.

Definition ITEMS_PER_PAGE : Z := 6.

(** ** The operations *)

Section QueryService.

(** The currency formatter of [./utils], which is not part of the sources:
    the operations are stated for any formatter. *)
Variable formatCurrency : Z → string.
(** The client of [@/lib/supabase]. *)
Variable supabase : Supabase.

Definition fetchRevenue_request : Query.t :=
  Query.from "revenue" ▷ Query.select "*" ▷ Query.order "month".

(** [return data as Revenue[]] hands [data] over unchecked. *)
Definition fetchRevenue : Outcome (option (list Revenue.t)) :=
  try_catch "Failed to fetch revenue data." (
    response ← await (supabase RevenueRows fetchRevenue_request);
    _ ← throw_if_error response;
    mret (data response)).

Definition fetchLatestInvoices_request : Query.t :=
  Query.from "invoices"
  ▷ Query.select "amount,customers(name,image_url,email),id"
  ▷ Query.order_with "date" false
  ▷ Query.limit 5.

Definition fetchLatestInvoices_row (invoice : LatestInvoiceRow.t)
    : Exn LatestInvoiceRaw.t :=
  customer ← member_of (LatestInvoiceRow.customers invoice !! 0%nat);
  mret {| LatestInvoiceRaw.id := LatestInvoiceRow.id invoice;
          LatestInvoiceRaw.amount := Number (LatestInvoiceRow.amount invoice);
          LatestInvoiceRaw.name := CustomerInfo.name customer;
          LatestInvoiceRaw.email := CustomerInfo.email customer;
          LatestInvoiceRaw.image_url := CustomerInfo.image_url customer |}.

Definition fetchLatestInvoices : Outcome (list LatestInvoiceRaw.t) :=
  try_catch "Failed to fetch the latest invoices." (
    response ← await (supabase LatestInvoiceRows fetchLatestInvoices_request);
    _ ← throw_if_error response;
    rows ← member_of (data response);
    latestInvoices ← mapM fetchLatestInvoices_row rows;
    mret latestInvoices).

Definition fetchCardData_requests : Query.t * Query.t * Query.t :=
  (Query.from "invoices" ▷ Query.select_with "*" "exact" true,
   Query.from "customers" ▷ Query.select_with "*" "exact" true,
   Query.from "invoices" ▷ Query.select "amount,status").

(** Only [count] and [data] are destructured from the three responses. *)
Definition fetchCardData : Outcome CardData.t :=
  try_catch "Failed to fetch card data." (
    let '(q1, q2, q3) := fetchCardData_requests in
    '(r1, r2, r3) ← Promise_all3 (supabase HeadOnly q1) (supabase HeadOnly q2)
                                  (supabase AmountStatusRows q3);
    let invoiceCount := count r1 in
    let customerCount := count r2 in
    let invoiceStatus := data r3 in
    let totalPaidInvoices := formatCurrency (default 0 (
      foldl (λ acc inv, acc +
               (if decide (AmountStatus.status inv = "paid")
                then AmountStatus.amount inv else 0))
            0 <$> invoiceStatus)) in
    let totalPendingInvoices := formatCurrency (default 0 (
      foldl (λ acc inv, acc +
               (if decide (AmountStatus.status inv = "pending")
                then AmountStatus.amount inv else 0))
            0 <$> invoiceStatus)) in
    mret {| CardData.numberOfCustomers := default 0 customerCount;
            CardData.numberOfInvoices := default 0 invoiceCount;
            CardData.totalPaidInvoices := totalPaidInvoices;
            CardData.totalPendingInvoices := totalPendingInvoices |}).

Definition fetchFilteredInvoices_request (query : string) (currentPage : Z)
    : Query.t :=
  let offset := (currentPage - 1) * ITEMS_PER_PAGE in
  Query.from "invoices"
  ▷ Query.select
      "id,amount,date,status,customer_id,customers(name,email,image_url)"
  ▷ Query.or ("customers.name.ilike.%" +:+ query
              +:+ "%,customers.email.ilike.%" +:+ query
              +:+ "%,amount.ilike.%" +:+ query
              +:+ "%,date.ilike.%" +:+ query
              +:+ "%,status.ilike.%" +:+ query +:+ "%")
  ▷ Query.order_with "date" false
  ▷ Query.range offset (offset + ITEMS_PER_PAGE - 1).

Definition fetchFilteredInvoices_row (invoice : InvoiceRow.t)
    : Exn InvoicesTable.t :=
  customer ← member_of (InvoiceRow.customers invoice !! 0%nat);
  mret {| InvoicesTable.id := InvoiceRow.id invoice;
          InvoicesTable.customer_id := InvoiceRow.customer_id invoice;
          InvoicesTable.amount := InvoiceRow.amount invoice;
          InvoicesTable.date := InvoiceRow.date invoice;
          InvoicesTable.status := InvoiceRow.status invoice;
          InvoicesTable.name := CustomerInfo.name customer;
          InvoicesTable.email := CustomerInfo.email customer;
          InvoicesTable.image_url := CustomerInfo.image_url customer |}.

Definition fetchFilteredInvoices (query : string) (currentPage : Z)
    : Outcome (list InvoicesTable.t) :=
  try_catch "Failed to fetch invoices." (
    response ← await (supabase InvoiceRows
                        (fetchFilteredInvoices_request query currentPage));
    _ ← throw_if_error response;
    rows ← member_of (data response);
    invoices ← mapM fetchFilteredInvoices_row rows;
    mret invoices).

Definition fetchInvoicesPages_request (query : string) : Query.t :=
  Query.from "invoices"
  ▷ Query.select_with "*" "exact" true
  ▷ Query.or ("customers.name.ilike.%" +:+ query
              +:+ "%,customers.email.ilike.%" +:+ query
              +:+ "%,amount.ilike.%" +:+ query
              +:+ "%,date.ilike.%" +:+ query
              +:+ "%,status.ilike.%" +:+ query +:+ "%").

Definition fetchInvoicesPages (query : string) : Outcome Z :=
  try_catch "Failed to fetch total number of invoices." (
    response ← await (supabase HeadOnly (fetchInvoicesPages_request query));
    _ ← throw_if_error response;
    let totalPages :=
      Math_ceil (inject_Z (default 0 (count response))
                 / inject_Z ITEMS_PER_PAGE) in
    mret totalPages).

Definition fetchInvoiceById_request (id : string) : Query.t :=
  Query.from "invoices"
  ▷ Query.select "id,customer_id,amount,status"
  ▷ Query.eq "id" id
  ▷ Query.single.

(** [{ ...data, amount: data.amount / 100 }] *)
Definition fetchInvoiceById (id : string) : Outcome InvoiceForm.t :=
  try_catch "Failed to fetch invoice." (
    response ← await (supabase SingleInvoice (fetchInvoiceById_request id));
    _ ← throw_if_error response;
    row ← member_of (data response);
    mret {| InvoiceForm.id := InvoiceRecord.id row;
            InvoiceForm.customer_id := InvoiceRecord.customer_id row;
            InvoiceForm.amount :=
              Double_div (Double_of_Z (InvoiceRecord.amount row))
                         (Double_of_Z 100);
            InvoiceForm.status := InvoiceRecord.status row |}).

Definition fetchCustomers_request : Query.t :=
  Query.from "customers" ▷ Query.select "id,name" ▷ Query.order "name".

Definition fetchCustomers : Outcome (option (list CustomerField.t)) :=
  try_catch "Failed to fetch all customers." (
    response ← await (supabase CustomerFields fetchCustomers_request);
    _ ← throw_if_error response;
    mret (data response)).

Definition fetchFilteredCustomers_request (query : string) : Query.t :=
  Query.from "customers"
  ▷ Query.select "id,name,email,image_url,invoices(id,amount,status)"
  ▷ Query.or ("name.ilike.%" +:+ query +:+ "%,email.ilike.%" +:+ query
              +:+ "%")
  ▷ Query.order "name".

Definition fetchFilteredCustomers_row (customer : CustomerRow.t)
    : CustomersTableType.t :=
  let totalPending := default 0 (
    foldl (λ acc inv, acc +
             (if decide (InvoiceBrief.status inv = "pending")
              then InvoiceBrief.amount inv else 0))
          0 <$> CustomerRow.invoices customer) in
  let totalPaid := default 0 (
    foldl (λ acc inv, acc +
             (if decide (InvoiceBrief.status inv = "paid")
              then InvoiceBrief.amount inv else 0))
          0 <$> CustomerRow.invoices customer) in
  {| CustomersTableType.id := CustomerRow.id customer;
     CustomersTableType.name := CustomerRow.name customer;
     CustomersTableType.email := CustomerRow.email customer;
     CustomersTableType.image_url := CustomerRow.image_url customer;
     CustomersTableType.total_invoices :=
       default 0 ((λ invoices, Z.of_nat (length invoices))
                  <$> CustomerRow.invoices customer);
     CustomersTableType.total_pending := totalPending;
     CustomersTableType.total_paid := totalPaid |}.

Definition fetchFilteredCustomers (query : string)
    : Outcome (list CustomersTableType.t) :=
  try_catch "Failed to fetch customer table." (
    response ← await (supabase CustomerRows
                        (fetchFilteredCustomers_request query));
    _ ← throw_if_error response;
    rows ← member_of (data response);
    mret (fetchFilteredCustomers_row <$> rows)).

End QueryService.

(** ** A reference database client

    The client and the database behind it are not part of the sources.
    Everything from here to [totalMatches] models them from the spec's
    description of the client: a table is read through filters, an order, a
    window ([range] or [limit]) and, for [single], the expectation of
    exactly one row, and is answered with rows, with a count, or with an
    error. *)

(** Modelled from the spec: the three tables of the database, which the
    sources only reach through the client.  Each row carries its joined
    relation as the client embeds it: an invoice its [customers], a customer
    its [invoices]. *)
Module Database.
Record t := mk {
  revenue : list Revenue.t;
  invoices : list InvoiceRow.t;
  customers : list CustomerRow.t }.
End Database.

Section Table.

Context {A : Type}.
(** Whether a row satisfies the filter expression handed to [or]. *)
Variable matches : string → A → bool.
(** The text of a named column of a row. *)
Variable column : string → A → string.

(** Modelled from the spec: the [or] and [eq] filters of the absent client
    keep the rows that satisfy them. *)
Definition restrict (q : Query.t) (rows : list A) : list A :=
  let rows :=
    match Query.or_filter q with
    | Some filters => filter (λ row, matches filters row) rows
    | None => rows
    end in
  match Query.eq_filter q with
  | Some (c, value) => filter (λ row, column c row = value) rows
  | None => rows
  end.

(** Modelled from the spec: the order of the absent client on a column,
    ascending or descending.  Columns are compared as texts; dates are
    stored in the form year-month-day, whose order as texts is their order
    as dates. *)
Definition by_column (c : string) (ascending : bool) : relation A :=
  λ a b, if ascending then (column c a ≤ column c b)%string
         else (column c b ≤ column c a)%string.

#[global] Instance by_column_dec c ascending :
  RelDecision (by_column c ascending).
Proof. intros a b. unfold by_column. destruct ascending; apply _. Defined.

(** Modelled from the spec: [order] of the absent client sorts the rows by
    the column. *)
Definition arrange (q : Query.t) (rows : list A) : list A :=
  match Query.order_by q with
  | Some (c, ascending) => merge_sort (by_column c ascending) rows
  | None => rows
  end.

(** Modelled from the spec: the window of the absent client.
    [range(from, to)] keeps the rows at positions [from] to [to], both
    included, counted from 0; [limit(n)] keeps the first [n]. *)
Definition window (q : Query.t) (rows : list A) : list A :=
  let rows :=
    match Query.range_of q with
    | Some (from, to) =>
        take (Z.to_nat (to + 1 - from)) (drop (Z.to_nat from) rows)
    | None => rows
    end in
  match Query.limit_of q with
  | Some n => take (Z.to_nat n) rows
  | None => rows
  end.

(** Modelled from the spec: an error response of the absent client. *)
Definition failure {T} (message code : string) : Response T :=
  mkResponse None (Some (PostgrestError.mk message "" "" code)) None.

(** Modelled from the spec: the answer of the absent database client to a
    request on a table.  It answers a request with the rows that pass its
    filters, put in the requested order and cut to the requested window, or
    with their number.  The spec says nothing of a range that starts below
    0; the model answers it with an error. *)
Definition answer (q : Query.t) (rows : list A) : Response (list A) :=
  let hits := restrict q rows in
  let response :=
    mkResponse
      (if Query.head q then None else Some (window q (arrange q hits)))
      None
      ((λ _, Z.of_nat (length hits)) <$> Query.count q) in
  match Query.range_of q with
  | Some (from, _) =>
      if decide (from < 0)
      then failure "Requested range not satisfiable" "PGRST103"
      else response
  | None => response
  end.

End Table.

(** Modelled from the spec: the columns of the three tables by name, for
    the filters and orders of the absent client. *)
Definition Revenue_column (c : string) (row : Revenue.t) : string :=
  if decide (c = "month") then Revenue.month row else "".

Definition InvoiceRow_column (c : string) (row : InvoiceRow.t) : string :=
  if decide (c = "id") then InvoiceRow.id row
  else if decide (c = "date") then InvoiceRow.date row
  else if decide (c = "status") then InvoiceRow.status row
  else if decide (c = "customer_id") then InvoiceRow.customer_id row
  else "".

Definition CustomerRow_column (c : string) (row : CustomerRow.t) : string :=
  if decide (c = "id") then CustomerRow.id row
  else if decide (c = "name") then CustomerRow.name row
  else if decide (c = "email") then CustomerRow.email row
  else if decide (c = "image_url") then CustomerRow.image_url row
  else "".

(** Modelled from the spec: the absent client returns only the columns a
    request selects. *)
Definition project {A B} (f : A → B) (r : Response (list A))
    : Response (list B) :=
  mkResponse (T := list B) ((λ rows : list A, f <$> rows) <$> data r)
             (error r) (count r).

(** Modelled from the spec: a [head] request of the absent client carries
    no rows. *)
Definition without_rows {A} (r : Response A) : Response Empty_set :=
  mkResponse None (error r) (count r).

(** Modelled from the spec: [single()] of the absent client expects exactly
    one row. *)
Definition exactly_one {A} (r : Response (list A)) : Response A :=
  match data r with
  | Some [row] => mkResponse (Some row) (error r) (count r)
  | Some _ =>
      failure "JSON object requested, multiple (or no) rows returned"
              "PGRST116"
  | None => mkResponse None (error r) (count r)
  end.

(** The columns of a stored invoice or customer that the selections of the
    operations keep. *)
Definition as_latest (row : InvoiceRow.t) : LatestInvoiceRow.t :=
  LatestInvoiceRow.mk (InvoiceRow.amount row) (InvoiceRow.customers row)
                      (InvoiceRow.id row).

Definition as_amount_status (row : InvoiceRow.t) : AmountStatus.t :=
  AmountStatus.mk (InvoiceRow.amount row) (InvoiceRow.status row).

Definition as_record (row : InvoiceRow.t) : InvoiceRecord.t :=
  InvoiceRecord.mk (InvoiceRow.id row) (InvoiceRow.customer_id row)
                   (InvoiceRow.amount row) (InvoiceRow.status row).

Definition as_field (row : CustomerRow.t) : CustomerField.t :=
  CustomerField.mk (CustomerRow.id row) (CustomerRow.name row).

Section Reference.

Variable invoice_matches : string → InvoiceRow.t → bool.
Variable customer_matches : string → CustomerRow.t → bool.
Variable db : Database.t.

Definition answer_invoices (q : Query.t) : Response (list InvoiceRow.t) :=
  answer invoice_matches InvoiceRow_column q (Database.invoices db).

Definition answer_customers (q : Query.t) : Response (list CustomerRow.t) :=
  answer customer_matches CustomerRow_column q (Database.customers db).

(** Modelled from the spec: the absent [supabase] client, over a database
    held in memory.  A row selection reads the table of its shape; a [head]
    request reads the table it names. *)
Definition reference : Supabase := λ s q,
  Fulfilled
    match s as s return Response (payload s) with
    | RevenueRows =>
        answer (λ _ _, true) Revenue_column q (Database.revenue db)
    | LatestInvoiceRows => project as_latest (answer_invoices q)
    | HeadOnly =>
        if decide (Query.table q = "invoices")
        then without_rows (answer_invoices q)
        else if decide (Query.table q = "customers")
        then without_rows (answer_customers q)
        else failure "Could not find the table" "PGRST205"
    | AmountStatusRows => project as_amount_status (answer_invoices q)
    | InvoiceRows => answer_invoices q
    | SingleInvoice => exactly_one (project as_record (answer_invoices q))
    | CustomerFields => project as_field (answer_customers q)
    | CustomerRows => answer_customers q
    end.

(** Modelled from the spec: the number of stored invoices a filter
    expression lets through (the spec's totalMatches). *)
Definition totalMatches (filters : string) : Z :=
  Z.of_nat (length (filter (λ row, invoice_matches filters row)
                           (Database.invoices db))).

End Reference.

(** ** Notions the statements are written in *)

(** The sum of a list of amounts. *)
Definition Zsum (amounts : list Z) : Z := foldr Z.add 0 amounts.

(** Rows in descending order of their date: the later date first. *)
Definition date_descending {A} (date : A → string) : relation A :=
  λ a b, (date b ≤ date a)%string.

(** What [fetchLatestInvoices] returns for a stored invoice whose first
    joined customer is [customer]. *)
Definition latest_of (invoice : InvoiceRow.t) (customer : CustomerInfo.t)
    : LatestInvoiceRaw.t :=
  {| LatestInvoiceRaw.id := InvoiceRow.id invoice;
     LatestInvoiceRaw.amount := Number (InvoiceRow.amount invoice);
     LatestInvoiceRaw.name := CustomerInfo.name customer;
     LatestInvoiceRaw.email := CustomerInfo.email customer;
     LatestInvoiceRaw.image_url := CustomerInfo.image_url customer |}.

(** ** Sample data *)

Definition sample_customer : CustomerInfo.t :=
  CustomerInfo.mk "Delba de Oliveira" "/customers/delba-de-oliveira.png"
                  "delba@oliveira.com".

Definition sample_invoice (id : string) (amount : Z) (date status : string)
    : InvoiceRow.t :=
  InvoiceRow.mk id amount date status "c1" [sample_customer].

Definition sample_brief (row : InvoiceRow.t) : InvoiceBrief.t :=
  InvoiceBrief.mk (InvoiceRow.id row) (InvoiceRow.amount row)
                  (InvoiceRow.status row).

Definition sample_invoices : list InvoiceRow.t :=
  [ sample_invoice "i1" 10000 "2023-01-05" "paid";
    sample_invoice "i2" 5000 "2023-03-01" "pending";
    sample_invoice "i3" 2000 "2022-12-31" "paid";
    sample_invoice "i4" 1599 "2023-02-01" "paid";
    sample_invoice "i5" 250 "2023-02-02" "pending";
    sample_invoice "i6" 3 "2023-02-03" "paid";
    sample_invoice "i7" 44 "2023-02-04" "pending";
    sample_invoice "i8" 5 "2021-02-04" "paid" ].

Definition sample_customers : list CustomerRow.t :=
  [ CustomerRow.mk "c1" "Delba de Oliveira" "delba@oliveira.com"
      "/customers/delba-de-oliveira.png"
      (Some (sample_brief <$> sample_invoices));
    CustomerRow.mk "c2" "Lee Robinson" "lee@robinson.com"
      "/customers/lee-robinson.png" (Some []);
    CustomerRow.mk "c3" "Michael Novotny" "michael@novotny.com"
      "/customers/michael-novotny.png" None ].

Definition sample_db : Database.t :=
  Database.mk [Revenue.mk "Jan" 2000; Revenue.mk "Feb" 1800]
              sample_invoices sample_customers.

(** The three invoices of the end-to-end scenario. *)
Definition scenario_db : Database.t :=
  Database.mk []
    [ sample_invoice "s1" 10000 "2023-01-01" "paid";
      sample_invoice "s2" 5000 "2023-01-02" "pending";
      sample_invoice "s3" 2000 "2023-01-03" "paid" ]
    [].

(** A filter semantics that lets every row through. *)
Definition match_all {A} : string → A → bool := λ _ _, true.

Definition sample_client : Supabase := reference match_all match_all sample_db.

(** A formatter to run the samples with: it prints the minor units. *)
Definition sample_format (amount : Z) : string := pretty amount +:+ " cents".

(** A client whose every request is fulfilled with an error response, as
    when the database cannot be reached. *)
Definition unreachable : Supabase := λ s q,
  Fulfilled (failure "connection refused" "08006").

(** The sample client, except that its answer to a selection of amount and
    status rows is an error response. *)
Definition rows_unavailable : Supabase := λ s q,
  match s as s return Settled (Response (payload s)) with
  | AmountStatusRows => Fulfilled (failure "canceling statement" "57014")
  | s => sample_client s q
  end.

(** A client that answers every selection of invoice rows, whatever its
    range, with the stored sample rows. *)
Definition lenient : Supabase := λ s q,
  match s as s return Settled (Response (payload s)) with
  | InvoiceRows => Fulfilled (mkResponse (Some sample_invoices) None None)
  | s => sample_client s q
  end.

(** The outcome of an operation that caught the client's error [e]: the
    error is logged once and the operation's own error is raised. *)
Definition raised (e : PostgrestError.t) (message : string) {A}
    (outcome : Outcome A) : Prop :=
  outcome = mkOutcome [("Database Error:", Postgrest e)]
                      (inl (Error message)).

(** ** Further notions and samples *)


(** The two ways an operation ends: with a value and an empty console, or
    with its own error and one console line for what it caught. *)
Definition clean_or_logged_once {A} (message : string) (outcome : Outcome A)
    : Prop :=
  (∃ a, outcome = mkOutcome [] (inr a))
  ∨ (∃ caught, outcome = mkOutcome [("Database Error:", caught)]
                                   (inl (Error message))).

(** A client whose every request is rejected, as when the network is
    down. *)
Definition offline : Supabase := λ s q, Rejected (Rejection "fetch failed").

(** A client whose every response carries neither rows, nor a count, nor an
    error. *)
Definition empty_handed : Supabase := λ s q,
  Fulfilled (mkResponse None None None).

(** The scenario stored in the opposite order, with two more invoices whose
    status is neither "paid" nor "pending". *)
Definition scenario_db_overdue : Database.t :=
  Database.mk []
    (sample_invoice "s4" 700 "2023-01-04" "overdue"
     :: reverse (Database.invoices scenario_db)
     ++ [sample_invoice "s5" 900 "2023-01-05" "Paid"])
    [].

(** Modelled from the spec: what the spec asks of the absent client for the
    page requests of one query, [matching] being the invoices that pass the
    filter.  Each page from 1 on is answered, without error, with the window
    of that page in an arrangement of the matching invoices in descending
    order of date.  The order is by date alone, so the arrangement need not
    be the same from one request to the next. *)
Definition answers_pages (supabase : Supabase) (query : string)
    (matching : list InvoiceRow.t) : Prop :=
  ∀ currentPage, 1 ≤ currentPage →
    ∃ sorted,
      sorted ≡ₚ matching
      ∧ StronglySorted (date_descending InvoiceRow.date) sorted
      ∧ supabase InvoiceRows (fetchFilteredInvoices_request query currentPage)
        = Fulfilled (mkResponse
            (Some (take 6 (drop (Z.to_nat ((currentPage - 1) * 6)) sorted)))
            None None).

(** Seven invoices of one and the same date. *)
Definition tie_invoices : list InvoiceRow.t :=
  (λ id, sample_invoice id 100 "2023-01-01" "paid")
  <$> ["a1"; "a2"; "a3"; "a4"; "a5"; "a6"; "a7"].

(** A client that answers the first page with the window of one arrangement
    of [tie_invoices] and the later pages with the windows of the opposite
    arrangement; both arrangements are in descending order of date. *)
Definition tie_client : Supabase := λ s q,
  match s as s return Settled (Response (payload s)) with
  | InvoiceRows =>
      Fulfilled (mkResponse
        (Some match Query.range_of q with
              | Some (from, to) =>
                  take (Z.to_nat (to + 1 - from))
                       (drop (Z.to_nat from)
                          (if decide (from = 0) then tie_invoices
                           else reverse tie_invoices))
              | None => tie_invoices
              end)
        None None)
  | s => sample_client s q
  end.

(** The statuses the totals of the operations take into account. *)
Definition counted (status : string) : Prop :=
  status = "paid" ∨ status = "pending".

#[global] Instance counted_dec status : Decision (counted status).
Proof. unfold counted. apply _. Defined.

(** * Properties *)

(** ** The error monad and the failure boundary *)

Lemma try_catch_inr {A} (message : string) (body : Exn A) (a : A) :
  body = inr a → try_catch message body = mkOutcome [] (inr a).
Proof. by intros ->. Qed.

Lemma try_catch_inl {A} (message : string) (body : Exn A) (e : Thrown) :
  body = inl e →
  try_catch message body
  = mkOutcome [("Database Error:", e)] (inl (Error message)).
Proof. by intros ->. Qed.

(** Whatever the body threw, the boundary raises its own error. *)
Lemma try_catch_raises {A} (message : string) (body : Exn A) (e : Thrown) :
  result (try_catch message body) = inl e → e = Error message.
Proof. destruct body; simpl; congruence. Qed.

Lemma try_catch_returns {A} (message : string) (body : Exn A) (a : A) :
  result (try_catch message body) = inr a ↔ body = inr a.
Proof. destruct body; simpl; split; congruence. Qed.

Lemma bind_inr {A B} (m : Exn A) (f : A → Exn B) (b : B) :
  m ≫= f = inr b ↔ ∃ a, m = inr a ∧ f a = inr b.
Proof.
  destruct m as [e|a]; simpl; split.
  - discriminate.
  - intros (a & Ha & _). discriminate.
  - eauto.
  - intros (a' & [= <-] & Hf). exact Hf.
Qed.

Lemma mapM_cons {A B} (f : A → Exn B) (x : A) (l : list A) :
  mapM f (x :: l) = y ← f x; k ← mapM f l; mret (y :: k).
Proof. reflexivity. Qed.

Lemma mapM_inr {A B} (f : A → Exn B) (l : list A) (k : list B) :
  mapM f l = inr k ↔ Forall2 (λ x y, f x = inr y) l k.
Proof.
  revert k. induction l as [|x l IH]; intros k.
  - simpl. split.
    + intros [= <-]. constructor.
    + intros H. inversion H. reflexivity.
  - rewrite mapM_cons. split.
    + intros H. apply bind_inr in H as (y & Hy & H).
      apply bind_inr in H as (k' & Hk' & [= <-]).
      constructor; [exact Hy | by apply IH].
    + intros H. inversion H as [|? y ? k' Hy Hk']; subst.
      apply bind_inr. exists y. split; [exact Hy|].
      apply bind_inr. exists k'. split; [by apply IH | reflexivity].
Qed.

Lemma member_of_inr {A} (receiver : option A) (a : A) :
  member_of receiver = inr a ↔ receiver = Some a.
Proof.
  destruct receiver; unfold member_of, throw, mret, Exn_ret; split;
    congruence.
Qed.

Lemma first_element_defined {A} (l : list A) :
  l ≠ [] ↔ ∃ a, l !! 0%nat = Some a.
Proof.
  destruct l as [|a l]; simpl; split.
  - intros H. by destruct H.
  - intros [a [=]].
  - eauto.
  - discriminate.
Qed.

(** ** Sums computed by [reduce] *)

Lemma Zsum_cons (x : Z) (l : list Z) : Zsum (x :: l) = x + Zsum l.
Proof. reflexivity. Qed.

Lemma reduce_conditional_sum {A} (P : A → Prop) `{!∀ x, Decision (P x)}
    (amount : A → Z) (l : list A) (acc : Z) :
  foldl (λ acc inv, acc + (if decide (P inv) then amount inv else 0)) acc l
  = acc + Zsum (amount <$> filter P l).
Proof.
  revert acc. induction l as [|x l IH]; intros acc; simpl.
  - unfold Zsum. simpl. lia.
  - rewrite IH, filter_cons. destruct (decide (P x)).
    + rewrite fmap_cons, Zsum_cons. lia.
    + lia.
Qed.

Lemma mapM_defined {A B} (f : A → Exn B) (l : list A) :
  (∃ k, mapM f l = inr k) ↔ Forall (λ x, ∃ y, f x = inr y) l.
Proof.
  split.
  - intros [k Hk]. apply mapM_inr in Hk.
    induction Hk; constructor; eauto.
  - induction 1 as [|x l [y Hy] _ [k Hk]].
    + by exists [].
    + exists (y :: k). apply mapM_inr. constructor; [done | by apply mapM_inr].
Qed.

(** ** The row-mapping steps *)

Lemma fetchLatestInvoices_row_inr (invoice : LatestInvoiceRow.t)
    (out : LatestInvoiceRaw.t) :
  fetchLatestInvoices_row invoice = inr out ↔
  ∃ customer,
    LatestInvoiceRow.customers invoice !! 0%nat = Some customer ∧
    out = {| LatestInvoiceRaw.id := LatestInvoiceRow.id invoice;
             LatestInvoiceRaw.amount := LatestInvoiceRow.amount invoice;
             LatestInvoiceRaw.name := CustomerInfo.name customer;
             LatestInvoiceRaw.email := CustomerInfo.email customer;
             LatestInvoiceRaw.image_url := CustomerInfo.image_url customer |}.
Proof.
  unfold fetchLatestInvoices_row. rewrite bind_inr. split.
  - intros (customer & H & [= <-]). apply member_of_inr in H. eauto.
  - intros (customer & H & ->). exists customer.
    split; [by apply member_of_inr | reflexivity].
Qed.

Lemma fetchFilteredInvoices_row_inr (invoice : InvoiceRow.t)
    (out : InvoicesTable.t) :
  fetchFilteredInvoices_row invoice = inr out ↔
  ∃ customer,
    InvoiceRow.customers invoice !! 0%nat = Some customer ∧
    out = {| InvoicesTable.id := InvoiceRow.id invoice;
             InvoicesTable.customer_id := InvoiceRow.customer_id invoice;
             InvoicesTable.amount := InvoiceRow.amount invoice;
             InvoicesTable.date := InvoiceRow.date invoice;
             InvoicesTable.status := InvoiceRow.status invoice;
             InvoicesTable.name := CustomerInfo.name customer;
             InvoicesTable.email := CustomerInfo.email customer;
             InvoicesTable.image_url := CustomerInfo.image_url customer |}.
Proof.
  unfold fetchFilteredInvoices_row. rewrite bind_inr. split.
  - intros (customer & H & [= <-]). apply member_of_inr in H. eauto.
  - intros (customer & H & ->). exists customer.
    split; [by apply member_of_inr | reflexivity].
Qed.

Lemma fetchLatestInvoices_row_defined (invoice : LatestInvoiceRow.t) :
  (∃ out, fetchLatestInvoices_row invoice = inr out) ↔
  LatestInvoiceRow.customers invoice ≠ [].
Proof.
  rewrite first_element_defined. split.
  - intros (out & H). apply fetchLatestInvoices_row_inr in H as (c & H & _).
    eauto.
  - intros (c & H). eexists. apply fetchLatestInvoices_row_inr. eauto.
Qed.

Lemma fetchFilteredInvoices_row_defined (invoice : InvoiceRow.t) :
  (∃ out, fetchFilteredInvoices_row invoice = inr out) ↔
  InvoiceRow.customers invoice ≠ [].
Proof.
  rewrite first_element_defined. split.
  - intros (out & H). apply fetchFilteredInvoices_row_inr in H as (c & H & _).
    eauto.
  - intros (c & H). eexists. apply fetchFilteredInvoices_row_inr. eauto.
Qed.

(** C9.  The row-mapping steps of [fetchLatestInvoices] and
    [fetchFilteredInvoices] read [customers[0]] of every row without
    checking that the array has an element.  The mapping of a list of rows
    goes through (no read of [customers[0]] takes the error branch of
    [member_of]) exactly when every row carries a non-empty [customers]
    array. *)
Theorem customers_first_element_defined :
  (∀ rows : list LatestInvoiceRow.t,
     Forall (λ invoice, LatestInvoiceRow.customers invoice ≠ []) rows ↔
     ∃ out, mapM fetchLatestInvoices_row rows = inr out) ∧
  (∀ rows : list InvoiceRow.t,
     Forall (λ invoice, InvoiceRow.customers invoice ≠ []) rows ↔
     ∃ out, mapM fetchFilteredInvoices_row rows = inr out).
Proof.
  split; intros rows; rewrite mapM_defined; apply Forall_proper; try done;
    intros invoice; symmetry.
  - apply fetchLatestInvoices_row_defined.
  - apply fetchFilteredInvoices_row_defined.
Qed.

(** ** What each operation does with a fulfilled response *)

Lemma fetchLatestInvoices_fulfilled (supabase : Supabase)
    (rows : list LatestInvoiceRow.t) (c : option Z) :
  supabase LatestInvoiceRows fetchLatestInvoices_request
    = Fulfilled (mkResponse (Some rows) None c) →
  fetchLatestInvoices supabase
  = try_catch "Failed to fetch the latest invoices."
              (mapM fetchLatestInvoices_row rows).
Proof.
  intros H. unfold fetchLatestInvoices. rewrite H. simpl.
  by destruct (mapM fetchLatestInvoices_row rows).
Qed.

Lemma fetchFilteredInvoices_fulfilled (supabase : Supabase) (query : string)
    (currentPage : Z) (rows : list InvoiceRow.t) (c : option Z) :
  supabase InvoiceRows (fetchFilteredInvoices_request query currentPage)
    = Fulfilled (mkResponse (Some rows) None c) →
  fetchFilteredInvoices supabase query currentPage
  = try_catch "Failed to fetch invoices."
              (mapM fetchFilteredInvoices_row rows).
Proof.
  intros H. unfold fetchFilteredInvoices. rewrite H. simpl.
  by destruct (mapM fetchFilteredInvoices_row rows).
Qed.

(** A row without a joined customer makes the whole operation fail. *)
Lemma fetchLatestInvoices_missing_customer (supabase : Supabase)
    (rows : list LatestInvoiceRow.t) (c : option Z) :
  supabase LatestInvoiceRows fetchLatestInvoices_request
    = Fulfilled (mkResponse (Some rows) None c) →
  Exists (λ invoice, LatestInvoiceRow.customers invoice = []) rows →
  result (fetchLatestInvoices supabase)
  = inl (Error "Failed to fetch the latest invoices.").
Proof.
  intros H Hex. rewrite (fetchLatestInvoices_fulfilled _ _ _ H).
  destruct (mapM fetchLatestInvoices_row rows) as [e|out] eqn:Hm; [done|].
  exfalso. apply Exists_exists in Hex as (invoice & Hin & Hnil).
  assert (Hd : ∃ k, mapM fetchLatestInvoices_row rows = inr k) by eauto.
  apply mapM_defined in Hd. eapply Forall_forall in Hd; [|exact Hin].
  by apply fetchLatestInvoices_row_defined in Hd.
Qed.

Lemma fetchFilteredInvoices_missing_customer (supabase : Supabase)
    (query : string) (currentPage : Z) (rows : list InvoiceRow.t)
    (c : option Z) :
  supabase InvoiceRows (fetchFilteredInvoices_request query currentPage)
    = Fulfilled (mkResponse (Some rows) None c) →
  Exists (λ invoice, InvoiceRow.customers invoice = []) rows →
  result (fetchFilteredInvoices supabase query currentPage)
  = inl (Error "Failed to fetch invoices.").
Proof.
  intros H Hex. rewrite (fetchFilteredInvoices_fulfilled _ _ _ _ _ H).
  destruct (mapM fetchFilteredInvoices_row rows) as [e|out] eqn:Hm; [done|].
  exfalso. apply Exists_exists in Hex as (invoice & Hin & Hnil).
  assert (Hd : ∃ k, mapM fetchFilteredInvoices_row rows = inr k) by eauto.
  apply mapM_defined in Hd. eapply Forall_forall in Hd; [|exact Hin].
  by apply fetchFilteredInvoices_row_defined in Hd.
Qed.

(** C10.  [fetchFilteredInvoices] does not validate its page: for every
    integer [currentPage] the request carries the range from
    [(currentPage - 1) * 6] to that plus 5; below page 1 both bounds are
    negative; and the operation neither rejects nor clamps such a page, it
    maps and returns whatever rows the client answers that request with. *)
Theorem fetchFilteredInvoices_page_unchecked (query : string)
    (currentPage : Z) :
  let offset := (currentPage - 1) * 6 in
  Query.range_of (fetchFilteredInvoices_request query currentPage)
    = Some (offset, offset + 5)
  ∧ (currentPage < 1 → offset < 0 ∧ offset + 5 < 0)
  ∧ ∀ (supabase : Supabase) (rows : list InvoiceRow.t),
      supabase InvoiceRows (fetchFilteredInvoices_request query currentPage)
        = Fulfilled (mkResponse (Some rows) None None) →
      fetchFilteredInvoices supabase query currentPage
      = try_catch "Failed to fetch invoices."
                  (mapM fetchFilteredInvoices_row rows).
Proof.
  intros offset. split; [|split].
  - unfold fetchFilteredInvoices_request, ITEMS_PER_PAGE. simpl.
    do 2 f_equal. subst offset. lia.
  - subst offset. lia.
  - intros supabase rows. apply fetchFilteredInvoices_fulfilled.
Qed.

Lemma fetchFilteredInvoices_page_unchecked_witness :
  Query.range_of (fetchFilteredInvoices_request "paid" 0) = Some (-6, -1)
  ∧ (-6 < 0 ∧ -1 < 0)
  ∧ result (fetchFilteredInvoices lenient "paid" 0)
    = result (fetchFilteredInvoices lenient "paid" 1).
Proof.
  destruct (fetchFilteredInvoices_page_unchecked "paid" 0) as (H1 & H2 & H3).
  split; [exact H1 | split; [apply H2; lia |]].
  rewrite (H3 lenient sample_invoices); [|reflexivity].
  destruct (fetchFilteredInvoices_page_unchecked "paid" 1) as (_ & _ & H4).
  rewrite (H4 lenient sample_invoices); reflexivity.
Defined.

(** ** [fetchInvoiceById] *)

(** C5 (as amended).  When the fetch of an invoice succeeds (the response
    carries the row and no error), [fetchInvoiceById] returns that row with
    [id], [customer_id] and [status] unchanged and with, as [amount], the
    binary64 quotient of the stored minor-unit amount by 100. *)
Theorem fetchInvoiceById_amount (supabase : Supabase) (id : string)
    (row : InvoiceRecord.t) (c : option Z) :
  supabase SingleInvoice (fetchInvoiceById_request id)
    = Fulfilled (mkResponse (Some row) None c) →
  ∃ form,
    fetchInvoiceById supabase id = mkOutcome [] (inr form)
    ∧ InvoiceForm.amount form
      = Double_div (Double_of_Z (InvoiceRecord.amount row)) (Double_of_Z 100)
    ∧ InvoiceForm.id form = InvoiceRecord.id row
    ∧ InvoiceForm.customer_id form = InvoiceRecord.customer_id row
    ∧ InvoiceForm.status form = InvoiceRecord.status row.
Proof.
  intros H. unfold fetchInvoiceById. rewrite H. simpl.
  eexists. split; [reflexivity|]. repeat split.
Qed.

Lemma fetchInvoiceById_amount_witness :
  ∃ form,
    fetchInvoiceById sample_client "i4" = mkOutcome [] (inr form)
    ∧ InvoiceForm.amount form
      = Double_div (Double_of_Z 1599) (Double_of_Z 100)
    ∧ InvoiceForm.id form = "i4"
    ∧ InvoiceForm.customer_id form = "c1"
    ∧ InvoiceForm.status form = "paid".
Proof.
  exact (fetchInvoiceById_amount sample_client "i4"
           (InvoiceRecord.mk "i4" "c1" 1599 "paid") None eq_refl).
Defined.

(** C5 (as stated, refuted).  The returned amount is not always the stored
    amount divided by 100 exactly: for the sample invoice "i4", which stores
    1599, the fetch succeeds and returns the binary64 number
    9001569755206779 / 2^49, which is not 1599 / 100, and which times 100 is
    not 1599. *)
Lemma fetchInvoiceById_amount_not_exact :
  ∃ form returned,
    fetchInvoiceById sample_client "i4" = mkOutcome [] (inr form)
    ∧ Double_value (InvoiceForm.amount form) = Some returned
    ∧ (returned == 9001569755206779 # 562949953421312)%Q
    ∧ ¬ (returned == inject_Z 1599 / inject_Z 100)%Q
    ∧ ¬ (returned * inject_Z 100 == inject_Z 1599)%Q.
Proof.
  do 2 eexists. split; [reflexivity|]. split; [reflexivity|].
  repeat split; vm_compute; discriminate.
Qed.

(** The spec's example: a stored 3000 is returned as exactly 30. *)
Example fetchInvoiceById_3000 (supabase : Supabase) (id : string)
    (form : InvoiceForm.t) :
  supabase SingleInvoice (fetchInvoiceById_request id)
    = Fulfilled (mkResponse (Some (InvoiceRecord.mk id "c1" 3000 "paid"))
                            None None) →
  result (fetchInvoiceById supabase id) = inr form →
  ∃ returned,
    Double_value (InvoiceForm.amount form) = Some returned
    ∧ (returned == 30)%Q.
Proof.
  intros H. unfold fetchInvoiceById. rewrite H. simpl. intros [= <-].
  eexists. split; reflexivity.
Qed.

(** A stored 29 is returned as 5224175567749775 / 2^54, which is not
    29 / 100. *)
Example fetchInvoiceById_29 (supabase : Supabase) (id : string)
    (form : InvoiceForm.t) :
  supabase SingleInvoice (fetchInvoiceById_request id)
    = Fulfilled (mkResponse (Some (InvoiceRecord.mk id "c1" 29 "paid"))
                            None None) →
  result (fetchInvoiceById supabase id) = inr form →
  InvoiceForm.amount form = S754_finite false 5224175567749775 (-54)
  ∧ ¬ (5224175567749775 # 18014398509481984 == 29 # 100)%Q.
Proof.
  intros H. unfold fetchInvoiceById. rewrite H. simpl. intros [= <-].
  split; [reflexivity|]. vm_compute. discriminate.
Qed.

(** ** [fetchCardData] *)

Lemma fetchCardData_fulfilled (formatCurrency : Z → string)
    (supabase : Supabase) (r1 r2 : Response Empty_set)
    (r3 : Response (list AmountStatus.t)) :
  supabase HeadOnly (fetchCardData_requests.1.1) = Fulfilled r1 →
  supabase HeadOnly (fetchCardData_requests.1.2) = Fulfilled r2 →
  supabase AmountStatusRows (fetchCardData_requests.2) = Fulfilled r3 →
  fetchCardData formatCurrency supabase
  = mkOutcome [] (inr
      {| CardData.numberOfCustomers := default 0 (count r2);
         CardData.numberOfInvoices := default 0 (count r1);
         CardData.totalPaidInvoices :=
           formatCurrency (Zsum (AmountStatus.amount <$>
             filter (λ inv, AmountStatus.status inv = "paid")
                    (default [] (data r3))));
         CardData.totalPendingInvoices :=
           formatCurrency (Zsum (AmountStatus.amount <$>
             filter (λ inv, AmountStatus.status inv = "pending")
                    (default [] (data r3)))) |}).
Proof.
  simpl. intros H1 H2 H3. unfold fetchCardData. simpl.
  rewrite H1, H2, H3. simpl. do 3 f_equal.
  - destruct (data r3) as [rows|]; simpl; [|done].
    by rewrite reduce_conditional_sum.
  - destruct (data r3) as [rows|]; simpl; [|done].
    by rewrite reduce_conditional_sum.
Qed.

(** A request that is rejected does fail the whole operation. *)
Lemma fetchCardData_rejected (formatCurrency : Z → string)
    (supabase : Supabase) :
  (∃ reason,
     supabase HeadOnly (fetchCardData_requests.1.1) = Rejected reason
     ∨ supabase HeadOnly (fetchCardData_requests.1.2) = Rejected reason
     ∨ supabase AmountStatusRows (fetchCardData_requests.2)
       = Rejected reason) →
  result (fetchCardData formatCurrency supabase)
  = inl (Error "Failed to fetch card data.").
Proof.
  simpl. intros (reason & H). unfold fetchCardData, Promise_all3. simpl.
  destruct H as [H|[H|H]]; rewrite H;
    repeat match goal with
    | |- context [await (supabase ?s ?q)] => destruct (supabase s q)
    end; reflexivity.
Qed.

(** C6.  When the three requests of [fetchCardData] are fulfilled and the
    third carries the invoice rows, [totalPaidInvoices] is the formatted sum
    of the amounts of exactly the rows whose status is "paid",
    [totalPendingInvoices] the formatted sum over exactly those whose status
    is "pending", and with no rows both are the formatted 0. *)
Theorem fetchCardData_totals (formatCurrency : Z → string)
    (supabase : Supabase) (r1 r2 : Response Empty_set)
    (rows : list AmountStatus.t) (e : option PostgrestError.t)
    (c : option Z) :
  supabase HeadOnly (fetchCardData_requests.1.1) = Fulfilled r1 →
  supabase HeadOnly (fetchCardData_requests.1.2) = Fulfilled r2 →
  supabase AmountStatusRows (fetchCardData_requests.2)
    = Fulfilled (mkResponse (Some rows) e c) →
  ∃ card,
    fetchCardData formatCurrency supabase = mkOutcome [] (inr card)
    ∧ CardData.totalPaidInvoices card
      = formatCurrency (Zsum (AmountStatus.amount <$>
          filter (λ inv, AmountStatus.status inv = "paid") rows))
    ∧ CardData.totalPendingInvoices card
      = formatCurrency (Zsum (AmountStatus.amount <$>
          filter (λ inv, AmountStatus.status inv = "pending") rows))
    ∧ (rows = [] →
       CardData.totalPaidInvoices card = formatCurrency 0
       ∧ CardData.totalPendingInvoices card = formatCurrency 0).
Proof.
  intros H1 H2 H3.
  rewrite (fetchCardData_fulfilled _ _ _ _ _ H1 H2 H3).
  eexists. split; [reflexivity|]. simpl. repeat split; by subst.
Qed.

Lemma fetchCardData_totals_witness :
  ∃ card,
    fetchCardData sample_format (reference match_all match_all scenario_db)
      = mkOutcome [] (inr card)
    ∧ CardData.totalPaidInvoices card = sample_format 12000
    ∧ CardData.totalPendingInvoices card = sample_format 5000
    ∧ (as_amount_status <$> Database.invoices scenario_db = [] →
       CardData.totalPaidInvoices card = sample_format 0
       ∧ CardData.totalPendingInvoices card = sample_format 0).
Proof.
  exact (fetchCardData_totals sample_format
           (reference match_all match_all scenario_db)
           (mkResponse None None (Some 3)) (mkResponse None None (Some 0))
           (as_amount_status <$> Database.invoices scenario_db) None None
           eq_refl eq_refl eq_refl).
Defined.

(** The end-to-end scenario of the spec, for any formatter: paid is
    formatted from 12000 and pending from 5000. *)
Example fetchCardData_scenario (formatCurrency : Z → string) :
  fetchCardData formatCurrency (reference match_all match_all scenario_db)
  = mkOutcome [] (inr (CardData.mk 0 3 (formatCurrency 12000)
                                   (formatCurrency 5000))).
Proof. reflexivity. Qed.

(** C1 (the code departs from it).  With the sample client answering the
    selection of amount and status rows with an error response, and the two
    counts as usual, [fetchCardData] raises nothing: it returns a summary
    with both counts and with both totals formatted from 0. *)
Theorem fetchCardData_returns_degraded_summary :
  fetchCardData sample_format rows_unavailable
  = mkOutcome [] (inr (CardData.mk 3 8 "0 cents" "0 cents")).
Proof. reflexivity. Qed.

(** C2 (the code departs from it).  With every response carrying an error,
    [fetchCardData] logs nothing and raises nothing: it returns zero counts
    and totals formatted from 0. *)
Theorem fetchCardData_ignores_error_field (formatCurrency : Z → string) :
  fetchCardData formatCurrency unreachable
  = mkOutcome [] (inr (CardData.mk 0 0 (formatCurrency 0)
                                   (formatCurrency 0))).
Proof. reflexivity. Qed.

(** Whatever the three fulfilled responses hold in [error], [fetchCardData]
    returns a summary. *)
Lemma fetchCardData_never_reads_error (formatCurrency : Z → string)
    (answers : ∀ s, Query.t → Response (payload s)) :
  ∃ card,
    fetchCardData formatCurrency (λ s q, Fulfilled (answers s q))
    = mkOutcome [] (inr card).
Proof.
  eexists. by apply (fetchCardData_fulfilled formatCurrency
                       (λ s q, Fulfilled (answers s q))).
Qed.

(** ** The failure boundary of the other seven operations *)

Section ErrorResponse.

Variable supabase : Supabase.
Variable e : PostgrestError.t.

Ltac caught H He :=
  unfold raised; rewrite H;
  match goal with r : Response _ |- _ => destruct r as [? err ?] end;
  simpl in He; subst; reflexivity.

Lemma fetchRevenue_error_response r :
  supabase RevenueRows fetchRevenue_request = Fulfilled r →
  error r = Some e →
  raised e "Failed to fetch revenue data." (fetchRevenue supabase).
Proof.
  intros H He. unfold fetchRevenue. caught H He.
Qed.

Lemma fetchLatestInvoices_error_response r :
  supabase LatestInvoiceRows fetchLatestInvoices_request = Fulfilled r →
  error r = Some e →
  raised e "Failed to fetch the latest invoices."
         (fetchLatestInvoices supabase).
Proof.
  intros H He. unfold fetchLatestInvoices. caught H He.
Qed.

Lemma fetchFilteredInvoices_error_response query currentPage r :
  supabase InvoiceRows (fetchFilteredInvoices_request query currentPage)
    = Fulfilled r →
  error r = Some e →
  raised e "Failed to fetch invoices."
         (fetchFilteredInvoices supabase query currentPage).
Proof.
  intros H He. unfold fetchFilteredInvoices. caught H He.
Qed.

Lemma fetchInvoicesPages_error_response query r :
  supabase HeadOnly (fetchInvoicesPages_request query) = Fulfilled r →
  error r = Some e →
  raised e "Failed to fetch total number of invoices."
         (fetchInvoicesPages supabase query).
Proof.
  intros H He. unfold fetchInvoicesPages. caught H He.
Qed.

(** The no-matching-row condition of [single()] is one such error. *)
Lemma fetchInvoiceById_error_response id r :
  supabase SingleInvoice (fetchInvoiceById_request id) = Fulfilled r →
  error r = Some e →
  raised e "Failed to fetch invoice." (fetchInvoiceById supabase id).
Proof.
  intros H He. unfold fetchInvoiceById. caught H He.
Qed.

Lemma fetchCustomers_error_response r :
  supabase CustomerFields fetchCustomers_request = Fulfilled r →
  error r = Some e →
  raised e "Failed to fetch all customers." (fetchCustomers supabase).
Proof.
  intros H He. unfold fetchCustomers. caught H He.
Qed.

Lemma fetchFilteredCustomers_error_response query r :
  supabase CustomerRows (fetchFilteredCustomers_request query) = Fulfilled r →
  error r = Some e →
  raised e "Failed to fetch customer table."
         (fetchFilteredCustomers supabase query).
Proof.
  intros H He. unfold fetchFilteredCustomers. caught H He.
Qed.

End ErrorResponse.

(** No operation lets a value it caught reach its caller: whatever it
    raises is its own error. *)
Lemma raw_error_never_propagated (formatCurrency : Z → string)
    (supabase : Supabase) (query id : string) (currentPage : Z)
    (thrown : Thrown) :
  (result (fetchRevenue supabase) = inl thrown →
   thrown = Error "Failed to fetch revenue data.")
  ∧ (result (fetchLatestInvoices supabase) = inl thrown →
     thrown = Error "Failed to fetch the latest invoices.")
  ∧ (result (fetchCardData formatCurrency supabase) = inl thrown →
     thrown = Error "Failed to fetch card data.")
  ∧ (result (fetchFilteredInvoices supabase query currentPage) = inl thrown →
     thrown = Error "Failed to fetch invoices.")
  ∧ (result (fetchInvoicesPages supabase query) = inl thrown →
     thrown = Error "Failed to fetch total number of invoices.")
  ∧ (result (fetchInvoiceById supabase id) = inl thrown →
     thrown = Error "Failed to fetch invoice.")
  ∧ (result (fetchCustomers supabase) = inl thrown →
     thrown = Error "Failed to fetch all customers.")
  ∧ (result (fetchFilteredCustomers supabase query) = inl thrown →
     thrown = Error "Failed to fetch customer table.").
Proof. repeat split; apply try_catch_raises. Qed.

(** ** [fetchFilteredCustomers] *)

(** C8.  When the fetch succeeds, every customer returned carries
    [total_invoices] equal to the number of its joined invoices,
    [total_pending] equal to the sum of the amounts of those with status
    "pending" and [total_paid] the sum over those with status "paid"; the
    three are numbers, and a customer with no invoice (an empty or a missing
    [invoices] array) has 0 for all three. *)
Theorem fetchFilteredCustomers_totals (supabase : Supabase) (query : string)
    (rows : list CustomerRow.t) (c : option Z) :
  supabase CustomerRows (fetchFilteredCustomers_request query)
    = Fulfilled (mkResponse (Some rows) None c) →
  ∃ out,
    fetchFilteredCustomers supabase query = mkOutcome [] (inr out)
    ∧ Forall2 (λ customer o,
        let invoices := default [] (CustomerRow.invoices customer) in
        CustomersTableType.id o = CustomerRow.id customer
        ∧ CustomersTableType.name o = CustomerRow.name customer
        ∧ CustomersTableType.email o = CustomerRow.email customer
        ∧ CustomersTableType.image_url o = CustomerRow.image_url customer
        ∧ CustomersTableType.total_invoices o = Z.of_nat (length invoices)
        ∧ CustomersTableType.total_pending o
          = Zsum (InvoiceBrief.amount <$>
              filter (λ inv, InvoiceBrief.status inv = "pending") invoices)
        ∧ CustomersTableType.total_paid o
          = Zsum (InvoiceBrief.amount <$>
              filter (λ inv, InvoiceBrief.status inv = "paid") invoices)
        ∧ (invoices = [] →
           CustomersTableType.total_invoices o = 0
           ∧ CustomersTableType.total_pending o = 0
           ∧ CustomersTableType.total_paid o = 0))
      rows out.
Proof.
  intros H. unfold fetchFilteredCustomers. rewrite H. simpl.
  eexists. split; [reflexivity|].
  apply Forall2_fmap_r, Forall_Forall2_diag, Forall_forall.
  intros customer _. simpl.
  assert (Hsum : ∀ P `{!∀ x, Decision (P x)},
    default 0 (foldl (λ acc inv, acc +
                 (if decide (P inv) then InvoiceBrief.amount inv else 0)) 0
               <$> CustomerRow.invoices customer)
    = Zsum (InvoiceBrief.amount <$>
            filter P (default [] (CustomerRow.invoices customer)))).
  { intros P ?. destruct (CustomerRow.invoices customer); simpl; [|done].
    by rewrite reduce_conditional_sum. }
  rewrite !Hsum. repeat split.
  - by destruct (CustomerRow.invoices customer).
  - destruct (CustomerRow.invoices customer); simpl in *; by subst.
  - by rewrite H0.
  - by rewrite H0.
Qed.

Lemma fetchFilteredCustomers_totals_witness :
  ∃ out,
    fetchFilteredCustomers sample_client "" = mkOutcome [] (inr out)
    ∧ Forall2 (λ customer o,
        let invoices := default [] (CustomerRow.invoices customer) in
        CustomersTableType.id o = CustomerRow.id customer
        ∧ CustomersTableType.name o = CustomerRow.name customer
        ∧ CustomersTableType.email o = CustomerRow.email customer
        ∧ CustomersTableType.image_url o = CustomerRow.image_url customer
        ∧ CustomersTableType.total_invoices o = Z.of_nat (length invoices)
        ∧ CustomersTableType.total_pending o
          = Zsum (InvoiceBrief.amount <$>
              filter (λ inv, InvoiceBrief.status inv = "pending") invoices)
        ∧ CustomersTableType.total_paid o
          = Zsum (InvoiceBrief.amount <$>
              filter (λ inv, InvoiceBrief.status inv = "paid") invoices)
        ∧ (invoices = [] →
           CustomersTableType.total_invoices o = 0
           ∧ CustomersTableType.total_pending o = 0
           ∧ CustomersTableType.total_paid o = 0))
      sample_customers out.
Proof.
  exact (fetchFilteredCustomers_totals sample_client "" sample_customers None
           eq_refl).
Defined.

Example fetchFilteredCustomers_sample :
  CustomersTableType.total_paid <$>
    (fetchFilteredCustomers_row <$> sample_customers) = [13607; 0; 0]
  ∧ CustomersTableType.total_pending <$>
      (fetchFilteredCustomers_row <$> sample_customers) = [5294; 0; 0]
  ∧ CustomersTableType.total_invoices <$>
      (fetchFilteredCustomers_row <$> sample_customers) = [8; 0; 0].
Proof. by vm_compute. Qed.

(** ** The reference client: filtering, ordering, windows *)

Section TableFacts.

Context {A : Type} (matches : string → A → bool).
Context (column : string → A → string).

#[local] Instance by_column_total c ascending :
  Total (by_column column c ascending).
Proof.
  intros a b. unfold by_column. destruct ascending; apply (total String.le).
Qed.

#[local] Instance by_column_transitive c ascending :
  Transitive (by_column column c ascending).
Proof.
  intros x y z. unfold by_column.
  destruct ascending; intros H1 H2; by etrans.
Qed.

Lemma arrange_Permutation (q : Query.t) (rows : list A) :
  arrange column q rows ≡ₚ rows.
Proof.
  unfold arrange. destruct (Query.order_by q) as [[c ascending]|]; [|done].
  apply merge_sort_Permutation.
Qed.

Lemma arrange_sorted (q : Query.t) (rows : list A) c ascending :
  Query.order_by q = Some (c, ascending) →
  StronglySorted (by_column column c ascending) (arrange column q rows).
Proof.
  intros H. unfold arrange. rewrite H.
  apply StronglySorted_merge_sort; apply _.
Qed.

Lemma restrict_or_only (q : Query.t) (rows : list A) filters :
  Query.or_filter q = Some filters →
  Query.eq_filter q = None →
  restrict matches column q rows
  = filter (λ row, matches filters row) rows.
Proof. intros H1 H2. unfold restrict. by rewrite H1, H2. Qed.

Lemma window_range (q : Query.t) (rows : list A) from to :
  Query.range_of q = Some (from, to) →
  Query.limit_of q = None →
  window q rows
  = take (Z.to_nat (to + 1 - from)) (drop (Z.to_nat from) rows).
Proof. intros H1 H2. unfold window. by rewrite H1, H2. Qed.

Lemma window_limit (q : Query.t) (rows : list A) n :
  Query.range_of q = None →
  Query.limit_of q = Some n →
  window q rows = take (Z.to_nat n) rows.
Proof. intros H1 H2. unfold window. by rewrite H1, H2. Qed.

Lemma answer_in_range (q : Query.t) (rows : list A) :
  (∀ from to, Query.range_of q = Some (from, to) → 0 ≤ from) →
  answer matches column q rows
  = mkResponse
      (if Query.head q then None
       else Some (window q (arrange column q (restrict matches column q rows))))
      None
      ((λ _, Z.of_nat (length (restrict matches column q rows)))
       <$> Query.count q).
Proof.
  intros H. unfold answer.
  destruct (Query.range_of q) as [[from to]|]; [|done].
  specialize (H from to eq_refl). by rewrite decide_False by lia.
Qed.

End TableFacts.

Lemma StronglySorted_take {A} (R : relation A) (n : nat) (l : list A) :
  StronglySorted R l → StronglySorted R (take n l).
Proof.
  intros H. rewrite <-(take_drop n l) in H.
  by apply StronglySorted_app_1_l in H.
Qed.

Lemma StronglySorted_drop {A} (R : relation A) (n : nat) (l : list A) :
  StronglySorted R l → StronglySorted R (drop n l).
Proof.
  intros H. rewrite <-(take_drop n l) in H.
  by apply StronglySorted_app_1_r in H.
Qed.

Lemma date_descending_fmap {A} (date : A → string) (l : list A) :
  StronglySorted (date_descending date) l
  ↔ StronglySorted (flip String.le) (date <$> l).
Proof.
  induction l as [|x l IH]; csimpl.
  - split; constructor.
  - rewrite !StronglySorted_cons, IH, Forall_fmap. done.
Qed.

Lemma Forall2_same_dates {A B} (f : A → string) (g : B → string)
    (l : list A) (k : list B) :
  Forall2 (λ x y, f x = g y) l k → f <$> l = g <$> k.
Proof. induction 1; csimpl; congruence. Qed.

(** Ordering invoice rows by the [date] column, descending, is ordering
    them by their date, later first. *)
Lemma by_date_descending (l : list InvoiceRow.t) :
  StronglySorted (by_column InvoiceRow_column "date" false) l →
  StronglySorted (date_descending InvoiceRow.date) l.
Proof. intros H. exact H. Qed.

(** ** [Math.ceil] of a quotient by the page size *)

Lemma Math_ceil_pages (n : Z) :
  let pages := Math_ceil (inject_Z n / inject_Z ITEMS_PER_PAGE) in
  6 * (pages - 1) < n ≤ 6 * pages.
Proof.
  unfold Math_ceil, Qceiling, Qfloor, Qdiv, Qmult, Qinv, Qopp, inject_Z,
    ITEMS_PER_PAGE.
  simpl. change (Z.pos (1 * 6)) with 6. rewrite Z.mul_1_r.
  pose proof (Z.div_mod (- n) 6 ltac:(lia)).
  pose proof (Z.mod_pos_bound (- n) 6 ltac:(lia)). lia.
Qed.

(** ** The requests of the paginated invoice table *)

Lemma fetchFilteredInvoices_request_range (query : string) (currentPage : Z) :
  Query.range_of (fetchFilteredInvoices_request query currentPage)
  = Some ((currentPage - 1) * 6, (currentPage - 1) * 6 + 5).
Proof.
  unfold fetchFilteredInvoices_request, ITEMS_PER_PAGE. simpl.
  do 2 f_equal. lia.
Qed.

(** Page 1 starts at offset 0. *)
Example fetchFilteredInvoices_first_page (query : string) :
  Query.range_of (fetchFilteredInvoices_request query 1) = Some (0, 5).
Proof. reflexivity. Qed.

Lemma same_filter (query : string) (currentPage : Z) :
  Query.or_filter (fetchInvoicesPages_request query)
  = Query.or_filter (fetchFilteredInvoices_request query currentPage).
Proof. reflexivity. Qed.

Section ReferenceFacts.

Variable invoice_matches : string → InvoiceRow.t → bool.
Variable customer_matches : string → CustomerRow.t → bool.
Variable db : Database.t.

#[local] Abbreviation client :=
  (reference invoice_matches customer_matches db).

(** What the reference client answers the request of a page with. *)
Lemma reference_page (query : string) (currentPage : Z) :
  1 ≤ currentPage →
  ∃ filters sorted,
    Query.or_filter (fetchFilteredInvoices_request query currentPage)
      = Some filters
    ∧ sorted ≡ₚ filter (λ row, invoice_matches filters row)
                       (Database.invoices db)
    ∧ StronglySorted (date_descending InvoiceRow.date) sorted
    ∧ client InvoiceRows (fetchFilteredInvoices_request query currentPage)
      = Fulfilled (mkResponse
          (Some (take 6 (drop (Z.to_nat ((currentPage - 1) * 6)) sorted)))
          None None).
Proof.
  intros Hp.
  set (q := fetchFilteredInvoices_request query currentPage).
  pose proof (fetchFilteredInvoices_request_range query currentPage) as Hr.
  fold q in Hr.
  assert (∃ filters, Query.or_filter q = Some filters) as [filters Hf]
    by (eexists; reflexivity).
  exists filters,
    (arrange InvoiceRow_column q
       (filter (λ row, invoice_matches filters row) (Database.invoices db))).
  split; [exact Hf|]. split; [apply arrange_Permutation|]. split.
  - apply by_date_descending. by apply arrange_sorted.
  - unfold reference, answer_invoices. f_equal.
    rewrite answer_in_range.
    2:{ intros from to. rewrite Hr. intros [= <- _]. lia. }
    rewrite (restrict_or_only _ _ _ _ filters Hf eq_refl).
    rewrite (window_range _ _ _ _ Hr eq_refl).
    replace (Z.to_nat ((currentPage - 1) * 6 + 5 + 1 - (currentPage - 1) * 6))
      with 6%nat by lia.
    reflexivity.
Qed.

(** What it answers the request of the latest invoices with. *)
Lemma reference_latest :
  ∃ sorted,
    sorted ≡ₚ Database.invoices db
    ∧ StronglySorted (date_descending InvoiceRow.date) sorted
    ∧ client LatestInvoiceRows fetchLatestInvoices_request
      = Fulfilled (mkResponse (Some (as_latest <$> take 5 sorted)) None None).
Proof.
  exists (arrange InvoiceRow_column fetchLatestInvoices_request
            (Database.invoices db)).
  split; [apply arrange_Permutation|]. split.
  - apply by_date_descending. by apply arrange_sorted.
  - reflexivity.
Qed.

(** What it answers the count request of [fetchInvoicesPages] with. *)
Lemma reference_count (query : string) :
  ∃ filters,
    Query.or_filter (fetchInvoicesPages_request query) = Some filters
    ∧ client HeadOnly (fetchInvoicesPages_request query)
      = Fulfilled (mkResponse None None
                     (Some (totalMatches invoice_matches db filters))).
Proof.
  eexists. split; reflexivity.
Qed.

End ReferenceFacts.

(** ** [fetchInvoicesPages] *)

(** C4.  For every query, [fetchInvoicesPages] asks for the exact count of
    the invoices under the very filter expression of
    [fetchFilteredInvoices], and with [total] the count the client answers
    it returns the ceiling of [total / 6]: the least integer [pages] with
    [total ≤ 6 * pages].  It returns 0 when no row matches. *)
Theorem fetchInvoicesPages_ceiling (supabase : Supabase) (query : string)
    (total : Z) :
  supabase HeadOnly (fetchInvoicesPages_request query)
    = Fulfilled (mkResponse None None (Some total)) →
  ∃ pages,
    fetchInvoicesPages supabase query = mkOutcome [] (inr pages)
    ∧ 6 * (pages - 1) < total ≤ 6 * pages
    ∧ (total = 0 → pages = 0)
    ∧ Query.count (fetchInvoicesPages_request query) = Some "exact"
    ∧ ∀ currentPage,
        Query.or_filter (fetchInvoicesPages_request query)
        = Query.or_filter (fetchFilteredInvoices_request query currentPage).
Proof.
  intros H. eexists. split.
  { unfold fetchInvoicesPages. rewrite H. reflexivity. }
  simpl. pose proof (Math_ceil_pages total) as Hc. simpl in Hc.
  split; [exact Hc|]. split; [|split; [reflexivity|]].
  - intros ->. reflexivity.
  - intros currentPage. reflexivity.
Qed.

Lemma fetchInvoicesPages_ceiling_witness :
  ∃ pages,
    fetchInvoicesPages sample_client "" = mkOutcome [] (inr pages)
    ∧ 6 * (pages - 1) < 8 ≤ 6 * pages
    ∧ (8 = 0 → pages = 0)
    ∧ Query.count (fetchInvoicesPages_request "") = Some "exact"
    ∧ ∀ currentPage,
        Query.or_filter (fetchInvoicesPages_request "")
        = Query.or_filter (fetchFilteredInvoices_request "" currentPage).
Proof.
  exact (fetchInvoicesPages_ceiling sample_client "" 8 eq_refl).
Defined.

(** A missing count is read as 0 and gives 0 pages. *)
Lemma fetchInvoicesPages_no_count (supabase : Supabase) (query : string) :
  supabase HeadOnly (fetchInvoicesPages_request query)
    = Fulfilled (mkResponse None None None) →
  fetchInvoicesPages supabase query = mkOutcome [] (inr 0).
Proof. intros H. unfold fetchInvoicesPages. by rewrite H. Qed.

(** ** The operations over the reference client *)

Section ReferenceClaims.

Variable invoice_matches : string → InvoiceRow.t → bool.
Variable customer_matches : string → CustomerRow.t → bool.
Variable db : Database.t.

#[local] Abbreviation client :=
  (reference invoice_matches customer_matches db).

(** C3.  Over the reference client, for every query and every page
    [currentPage ≥ 1], with every stored invoice carrying its customer:
    [fetchFilteredInvoices] requests the rows from offset
    [(currentPage - 1) * 6] on, ordered by date descending; it returns the
    rows at those positions of the matching invoices put in descending order
    of date, at most 6 of them and in that order; and it returns
    [min 6 (totalMatches - 6 * (currentPage - 1))] rows when that difference
    is positive and none otherwise. *)
Theorem fetchFilteredInvoices_page (query : string) (currentPage : Z) :
  1 ≤ currentPage →
  Forall (λ invoice, InvoiceRow.customers invoice ≠ [])
         (Database.invoices db) →
  ∃ filters sorted rows,
    Query.or_filter (fetchFilteredInvoices_request query currentPage)
      = Some filters
    ∧ Query.range_of (fetchFilteredInvoices_request query currentPage)
      = Some ((currentPage - 1) * 6, (currentPage - 1) * 6 + 5)
    ∧ Query.order_by (fetchFilteredInvoices_request query currentPage)
      = Some ("date", false)
    ∧ sorted ≡ₚ filter (λ row, invoice_matches filters row)
                       (Database.invoices db)
    ∧ StronglySorted (date_descending InvoiceRow.date) sorted
    ∧ mapM fetchFilteredInvoices_row
        (take 6 (drop (Z.to_nat ((currentPage - 1) * 6)) sorted)) = inr rows
    ∧ fetchFilteredInvoices client query currentPage
      = mkOutcome [] (inr rows)
    ∧ (length rows ≤ 6)%nat
    ∧ Z.of_nat (length rows)
      = (let rest := totalMatches invoice_matches db filters
                     - 6 * (currentPage - 1) in
         if decide (0 < rest) then Z.min 6 rest else 0)
    ∧ StronglySorted (date_descending InvoicesTable.date) rows.
Proof.
  intros Hp Hc.
  destruct (reference_page invoice_matches customer_matches db query
              currentPage Hp)
    as (filters & sorted & Hf & Hperm & Hsorted & Hresp).
  set (page := take 6 (drop (Z.to_nat ((currentPage - 1) * 6)) sorted))
    in Hresp.
  assert (Hpage : Forall (λ invoice, InvoiceRow.customers invoice ≠ [])
                         page).
  { apply Forall_take, Forall_drop, Forall_forall. intros x Hx.
    rewrite Hperm in Hx. apply list_elem_of_filter in Hx as [_ Hx].
    by eapply Forall_forall in Hc. }
  assert (∃ rows, mapM fetchFilteredInvoices_row page = inr rows)
    as [rows Hrows].
  { apply mapM_defined. eapply Forall_impl; [exact Hpage|].
    intros x. apply fetchFilteredInvoices_row_defined. }
  exists filters, sorted, rows.
  split; [exact Hf|].
  split; [apply fetchFilteredInvoices_request_range|].
  split; [reflexivity|].
  split; [exact Hperm|]. split; [exact Hsorted|]. split; [exact Hrows|].
  split.
  { rewrite (fetchFilteredInvoices_fulfilled _ _ _ _ _ Hresp).
    by rewrite Hrows. }
  apply mapM_inr in Hrows.
  assert (Hlen : length rows
                 = (6 `min` (length sorted
                             - Z.to_nat ((currentPage - 1) * 6)))%nat).
  { rewrite <-(Forall2_length _ _ _ Hrows). unfold page.
    by rewrite length_take, length_drop. }
  split; [lia|]. split.
  - unfold totalMatches. rewrite <-(Permutation_length Hperm), Hlen.
    cbv zeta. case_decide; lia.
  - apply date_descending_fmap.
    erewrite <-(Forall2_same_dates InvoiceRow.date InvoicesTable.date page).
    + apply (proj1 (date_descending_fmap InvoiceRow.date page)).
      by apply StronglySorted_take, StronglySorted_drop.
    + eapply Forall2_impl; [exact Hrows|]. intros x y Hxy.
      apply fetchFilteredInvoices_row_inr in Hxy as (c & _ & ->).
      reflexivity.
Qed.

(** Over the reference client the count [fetchInvoicesPages] divides is the
    number of stored invoices that pass the filter expression it shares
    with [fetchFilteredInvoices]. *)
Lemma fetchInvoicesPages_reference (query : string) :
  ∃ filters pages,
    Query.or_filter (fetchInvoicesPages_request query) = Some filters
    ∧ (∀ currentPage,
         Query.or_filter (fetchFilteredInvoices_request query currentPage)
         = Some filters)
    ∧ fetchInvoicesPages client query = mkOutcome [] (inr pages)
    ∧ 6 * (pages - 1) < totalMatches invoice_matches db filters ≤ 6 * pages
    ∧ (totalMatches invoice_matches db filters = 0 → pages = 0).
Proof.
  destruct (reference_count invoice_matches customer_matches db query)
    as (filters & Hf & Hresp).
  exists filters. eexists.
  split; [exact Hf|].
  split; [intros currentPage; by rewrite <-same_filter|].
  split.
  { unfold fetchInvoicesPages. rewrite Hresp. reflexivity. }
  simpl.
  pose proof (Math_ceil_pages (totalMatches invoice_matches db filters)) as H.
  simpl in H. split; [exact H|]. intros H0. rewrite H0 in H |- *.
  reflexivity.
Qed.

(** C7.  Over the reference client, with every stored invoice carrying its
    customer, [fetchLatestInvoices] returns the first
    [min 5 totalInvoiceCount] invoices of the stored ones put in descending
    order of date (all of them when fewer than 5 are stored), each with the
    name, email and image_url of its customer and with its amount as a
    number. *)
Theorem fetchLatestInvoices_latest :
  Forall (λ invoice, InvoiceRow.customers invoice ≠ [])
         (Database.invoices db) →
  ∃ sorted out,
    sorted ≡ₚ Database.invoices db
    ∧ StronglySorted (date_descending InvoiceRow.date) sorted
    ∧ fetchLatestInvoices client = mkOutcome [] (inr out)
    ∧ Forall2 (λ invoice o,
        ∃ customer,
          InvoiceRow.customers invoice !! 0%nat = Some customer
          ∧ o = latest_of invoice customer)
        (take 5 sorted) out
    ∧ length out = (5 `min` length (Database.invoices db))%nat.
Proof.
  intros Hc.
  destruct (reference_latest invoice_matches customer_matches db)
    as (sorted & Hperm & Hsorted & Hresp).
  assert (∃ out, mapM fetchLatestInvoices_row (as_latest <$> take 5 sorted)
                 = inr out) as [out Hout].
  { apply mapM_defined, Forall_fmap, Forall_take, Forall_forall.
    intros x Hx. rewrite Hperm in Hx. simpl.
    apply fetchLatestInvoices_row_defined. simpl.
    by eapply Forall_forall in Hc. }
  exists sorted, out. split; [exact Hperm|]. split; [exact Hsorted|].
  split.
  { rewrite (fetchLatestInvoices_fulfilled _ _ _ Hresp). by rewrite Hout. }
  apply mapM_inr, Forall2_fmap_l in Hout.
  split.
  - eapply Forall2_impl; [exact Hout|]. intros x y Hxy. simpl in Hxy.
    apply fetchLatestInvoices_row_inr in Hxy as (c & Hc0 & ->).
    by exists c.
  - rewrite <-(Forall2_length _ _ _ Hout), length_take.
    by rewrite (Permutation_length Hperm).
Qed.

End ReferenceClaims.

(** ** The sample database *)

Lemma sample_invoices_joined :
  Forall (λ invoice, InvoiceRow.customers invoice ≠ [])
         (Database.invoices sample_db).
Proof. repeat (constructor; [done|]). constructor. Qed.

Lemma fetchFilteredInvoices_page_witness :
  ∃ filters sorted rows,
    Query.or_filter (fetchFilteredInvoices_request "" 2) = Some filters
    ∧ Query.range_of (fetchFilteredInvoices_request "" 2) = Some (6, 11)
    ∧ Query.order_by (fetchFilteredInvoices_request "" 2)
      = Some ("date", false)
    ∧ sorted ≡ₚ filter (λ row, match_all filters row)
                       (Database.invoices sample_db)
    ∧ StronglySorted (date_descending InvoiceRow.date) sorted
    ∧ mapM fetchFilteredInvoices_row (take 6 (drop 6 sorted)) = inr rows
    ∧ fetchFilteredInvoices sample_client "" 2 = mkOutcome [] (inr rows)
    ∧ (length rows ≤ 6)%nat
    ∧ Z.of_nat (length rows)
      = (let rest := totalMatches match_all sample_db filters - 6 * (2 - 1) in
         if decide (0 < rest) then Z.min 6 rest else 0)
    ∧ StronglySorted (date_descending InvoicesTable.date) rows.
Proof.
  exact (fetchFilteredInvoices_page match_all match_all sample_db "" 2
           ltac:(lia) sample_invoices_joined).
Defined.

Example fetchFilteredInvoices_sample_pages :
  sum_map id (fmap InvoicesTable.id)
          (result (fetchFilteredInvoices sample_client "" 1))
    = inr ["i2"; "i7"; "i6"; "i5"; "i4"; "i1"]
  ∧ sum_map id (fmap InvoicesTable.id)
          (result (fetchFilteredInvoices sample_client "" 2))
    = inr ["i3"; "i8"]
  ∧ result (fetchFilteredInvoices sample_client "" 3) = inr []
  ∧ result (fetchInvoicesPages sample_client "") = inr 2.
Proof. by vm_compute. Qed.

Lemma fetchLatestInvoices_latest_witness :
  ∃ sorted out,
    sorted ≡ₚ Database.invoices sample_db
    ∧ StronglySorted (date_descending InvoiceRow.date) sorted
    ∧ fetchLatestInvoices sample_client = mkOutcome [] (inr out)
    ∧ Forall2 (λ invoice o,
        ∃ customer,
          InvoiceRow.customers invoice !! 0%nat = Some customer
          ∧ o = latest_of invoice customer)
        (take 5 sorted) out
    ∧ length out = 5%nat.
Proof.
  exact (fetchLatestInvoices_latest match_all match_all sample_db
           sample_invoices_joined).
Defined.

Example fetchLatestInvoices_sample :
  sum_map id (fmap LatestInvoiceRaw.id)
          (result (fetchLatestInvoices sample_client))
  = inr ["i2"; "i7"; "i6"; "i5"; "i4"].
Proof. by vm_compute. Qed.

(** * Further properties of the operations *)

(** ** Failures of the single-request operations *)

Section Failures.

Variable supabase : Supabase.

Ltac rejected H := rewrite H; reflexivity.
Ltac refused H He :=
  unfold raised; rewrite H;
  match goal with r : Response _ |- _ => destruct r as [? err ?] end;
  simpl in He; subst; reflexivity.

(** X1.  [fetchRevenue], [fetchCustomers], [fetchInvoicesPages] and
    [fetchInvoiceById] fail in one way: when the request is rejected, or when
    its response carries an error (whatever else it carries), the operation
    logs that reason or error on one line and raises its own message. *)
Theorem reading_operations_fail (query id : string) :
  ((∀ reason, supabase RevenueRows fetchRevenue_request = Rejected reason →
      fetchRevenue supabase
      = mkOutcome [("Database Error:", reason)]
                  (inl (Error "Failed to fetch revenue data.")))
   ∧ (∀ r e, supabase RevenueRows fetchRevenue_request = Fulfilled r →
        error r = Some e →
        raised e "Failed to fetch revenue data." (fetchRevenue supabase)))
  ∧ ((∀ reason, supabase CustomerFields fetchCustomers_request
                = Rejected reason →
      fetchCustomers supabase
      = mkOutcome [("Database Error:", reason)]
                  (inl (Error "Failed to fetch all customers.")))
   ∧ (∀ r e, supabase CustomerFields fetchCustomers_request = Fulfilled r →
        error r = Some e →
        raised e "Failed to fetch all customers." (fetchCustomers supabase)))
  ∧ ((∀ reason, supabase HeadOnly (fetchInvoicesPages_request query)
                = Rejected reason →
      fetchInvoicesPages supabase query
      = mkOutcome [("Database Error:", reason)]
                  (inl (Error "Failed to fetch total number of invoices.")))
   ∧ (∀ r e, supabase HeadOnly (fetchInvoicesPages_request query)
             = Fulfilled r →
        error r = Some e →
        raised e "Failed to fetch total number of invoices."
               (fetchInvoicesPages supabase query)))
  ∧ ((∀ reason, supabase SingleInvoice (fetchInvoiceById_request id)
                = Rejected reason →
      fetchInvoiceById supabase id
      = mkOutcome [("Database Error:", reason)]
                  (inl (Error "Failed to fetch invoice.")))
   ∧ (∀ r e, supabase SingleInvoice (fetchInvoiceById_request id)
             = Fulfilled r →
        error r = Some e →
        raised e "Failed to fetch invoice." (fetchInvoiceById supabase id))).
Proof.
  repeat split.
  - intros reason H. unfold fetchRevenue. rejected H.
  - intros r e H He. unfold fetchRevenue. refused H He.
  - intros reason H. unfold fetchCustomers. rejected H.
  - intros r e H He. unfold fetchCustomers. refused H He.
  - intros reason H. unfold fetchInvoicesPages. rejected H.
  - intros r e H He. unfold fetchInvoicesPages. refused H He.
  - intros reason H. unfold fetchInvoiceById. rejected H.
  - intros r e H He. unfold fetchInvoiceById. refused H He.
Qed.

(** X2.  [fetchLatestInvoices], [fetchFilteredInvoices] and
    [fetchFilteredCustomers] fail in the same way: a rejected request, or a
    response that carries an error, is logged on one line and replaced by the
    operation's own message; rows that came with the error are not mapped. *)
Theorem mapping_operations_fail (query : string) (currentPage : Z) :
  ((∀ reason, supabase LatestInvoiceRows fetchLatestInvoices_request
              = Rejected reason →
      fetchLatestInvoices supabase
      = mkOutcome [("Database Error:", reason)]
                  (inl (Error "Failed to fetch the latest invoices.")))
   ∧ (∀ r e, supabase LatestInvoiceRows fetchLatestInvoices_request
             = Fulfilled r →
        error r = Some e →
        raised e "Failed to fetch the latest invoices."
               (fetchLatestInvoices supabase)))
  ∧ ((∀ reason,
        supabase InvoiceRows (fetchFilteredInvoices_request query currentPage)
        = Rejected reason →
      fetchFilteredInvoices supabase query currentPage
      = mkOutcome [("Database Error:", reason)]
                  (inl (Error "Failed to fetch invoices.")))
   ∧ (∀ r e,
        supabase InvoiceRows (fetchFilteredInvoices_request query currentPage)
        = Fulfilled r →
        error r = Some e →
        raised e "Failed to fetch invoices."
               (fetchFilteredInvoices supabase query currentPage)))
  ∧ ((∀ reason, supabase CustomerRows (fetchFilteredCustomers_request query)
                = Rejected reason →
      fetchFilteredCustomers supabase query
      = mkOutcome [("Database Error:", reason)]
                  (inl (Error "Failed to fetch customer table.")))
   ∧ (∀ r e, supabase CustomerRows (fetchFilteredCustomers_request query)
             = Fulfilled r →
        error r = Some e →
        raised e "Failed to fetch customer table."
               (fetchFilteredCustomers supabase query))).
Proof.
  repeat split.
  - intros reason H. unfold fetchLatestInvoices. rejected H.
  - intros r e H He. unfold fetchLatestInvoices. refused H He.
  - intros reason H. unfold fetchFilteredInvoices. rejected H.
  - intros r e H He. unfold fetchFilteredInvoices. refused H He.
  - intros reason H. unfold fetchFilteredCustomers. rejected H.
  - intros r e H He. unfold fetchFilteredCustomers. refused H He.
Qed.

End Failures.

Lemma reading_operations_fail_witness :
  fetchRevenue offline
  = mkOutcome [("Database Error:", Rejection "fetch failed")]
              (inl (Error "Failed to fetch revenue data."))
  ∧ raised (PostgrestError.mk "connection refused" "" "" "08006")
           "Failed to fetch all customers." (fetchCustomers unreachable)
  ∧ raised (PostgrestError.mk "connection refused" "" "" "08006")
           "Failed to fetch total number of invoices."
           (fetchInvoicesPages unreachable "lee")
  ∧ raised (PostgrestError.mk
              "JSON object requested, multiple (or no) rows returned" "" ""
              "PGRST116")
           "Failed to fetch invoice." (fetchInvoiceById sample_client "i9").
Proof.
  split; [|split; [|split]].
  - exact (proj1 (proj1 (reading_operations_fail offline "" ""))
             (Rejection "fetch failed") eq_refl).
  - exact (proj2 (proj1 (proj2 (reading_operations_fail unreachable "" "")))
             _ _ eq_refl eq_refl).
  - exact (proj2 (proj1 (proj2 (proj2
             (reading_operations_fail unreachable "lee" ""))))
             _ _ eq_refl eq_refl).
  - exact (proj2 (proj2 (proj2 (proj2
             (reading_operations_fail sample_client "" "i9"))))
             _ _ eq_refl eq_refl).
Defined.

Lemma mapping_operations_fail_witness :
  fetchLatestInvoices offline
  = mkOutcome [("Database Error:", Rejection "fetch failed")]
              (inl (Error "Failed to fetch the latest invoices."))
  ∧ raised (PostgrestError.mk "Requested range not satisfiable" "" ""
                              "PGRST103")
           "Failed to fetch invoices."
           (fetchFilteredInvoices sample_client "" 0)
  ∧ raised (PostgrestError.mk "connection refused" "" "" "08006")
           "Failed to fetch customer table."
           (fetchFilteredCustomers unreachable "lee").
Proof.
  split; [|split].
  - exact (proj1 (proj1 (mapping_operations_fail offline "" 1))
             (Rejection "fetch failed") eq_refl).
  - exact (proj2 (proj1 (proj2 (mapping_operations_fail sample_client "" 0)))
             _ _ eq_refl eq_refl).
  - exact (proj2 (proj2 (proj2 (mapping_operations_fail unreachable "lee" 1)))
             _ _ eq_refl eq_refl).
Defined.

(** ** The shape of every outcome *)

Lemma try_catch_shape {A} (message : string) (body : Exn A) :
  clean_or_logged_once message (try_catch message body).
Proof. destruct body; [right|left]; eauto. Qed.

(** X3.  Every operation ends in one of two ways: it returns a value and
    has logged nothing, or it raises the error with its own message and has
    logged exactly one line, labelled "Database Error:".  It never logs and
    returns, never raises silently, and never raises anything else. *)
Theorem outcome_shape (formatCurrency : Z → string) (supabase : Supabase)
    (query id : string) (currentPage : Z) :
  clean_or_logged_once "Failed to fetch revenue data."
    (fetchRevenue supabase)
  ∧ clean_or_logged_once "Failed to fetch the latest invoices."
      (fetchLatestInvoices supabase)
  ∧ clean_or_logged_once "Failed to fetch card data."
      (fetchCardData formatCurrency supabase)
  ∧ clean_or_logged_once "Failed to fetch invoices."
      (fetchFilteredInvoices supabase query currentPage)
  ∧ clean_or_logged_once "Failed to fetch total number of invoices."
      (fetchInvoicesPages supabase query)
  ∧ clean_or_logged_once "Failed to fetch invoice."
      (fetchInvoiceById supabase id)
  ∧ clean_or_logged_once "Failed to fetch all customers."
      (fetchCustomers supabase)
  ∧ clean_or_logged_once "Failed to fetch customer table."
      (fetchFilteredCustomers supabase query).
Proof. repeat split; apply try_catch_shape. Qed.

(** ** More on [fetchCardData] *)

Lemma Promise_all3_inr {A B C} (p1 : Settled A) (p2 : Settled B)
    (p3 : Settled C) (v : A * B * C) :
  Promise_all3 p1 p2 p3 = inr v
  ↔ p1 = Fulfilled v.1.1 ∧ p2 = Fulfilled v.1.2 ∧ p3 = Fulfilled v.2.
Proof.
  destruct v as [[a b] c]. unfold Promise_all3.
  destruct p1, p2, p3; simpl; split;
    try (intros [= -> -> ->]; done); try (intros ([=] & [=] & [=]); by subst);
    try discriminate; intros (H1 & H2 & H3); congruence.
Qed.

Lemma Promise_all3_inl {A B C} (p1 : Settled A) (p2 : Settled B)
    (p3 : Settled C) (reason : Thrown) :
  Promise_all3 p1 p2 p3 = inl reason →
  p1 = Rejected reason ∨ p2 = Rejected reason ∨ p3 = Rejected reason.
Proof.
  unfold Promise_all3. destruct p1, p2, p3; simpl; intros [=]; subst; auto.
Qed.

(** X4.  [fetchCardData] raises exactly when one of its three requests is
    rejected; the line it then logs holds the reason of a rejected request,
    and the error raised is its own.  Fulfilled requests never make it
    raise, whatever their responses hold. *)
Theorem fetchCardData_raises_iff_rejected (formatCurrency : Z → string)
    (supabase : Supabase) :
  ((∃ thrown, result (fetchCardData formatCurrency supabase) = inl thrown)
   ↔ ∃ reason,
       supabase HeadOnly (fetchCardData_requests.1.1) = Rejected reason
       ∨ supabase HeadOnly (fetchCardData_requests.1.2) = Rejected reason
       ∨ supabase AmountStatusRows (fetchCardData_requests.2)
         = Rejected reason)
  ∧ ∀ thrown, result (fetchCardData formatCurrency supabase) = inl thrown →
      thrown = Error "Failed to fetch card data."
      ∧ ∃ reason,
          console (fetchCardData formatCurrency supabase)
          = [("Database Error:", reason)]
          ∧ (supabase HeadOnly (fetchCardData_requests.1.1) = Rejected reason
             ∨ supabase HeadOnly (fetchCardData_requests.1.2)
               = Rejected reason
             ∨ supabase AmountStatusRows (fetchCardData_requests.2)
               = Rejected reason).
Proof.
  simpl. unfold fetchCardData. simpl.
  destruct (Promise_all3 _ _ _) as [reason|[[r1 r2] r3]] eqn:Hall; simpl.
  - apply Promise_all3_inl in Hall. split.
    + split; eauto.
    + intros thrown [= <-]. split; [done|]. eauto.
  - apply Promise_all3_inr in Hall as (H1 & H2 & H3). simpl in *. split.
    + split; [intros [? [=]]|]. intros (reason & [H|[H|H]]); congruence.
    + intros thrown [=].
Qed.

(** X5.  When its three requests are fulfilled, [fetchCardData] returns the
    count of the first response as [numberOfInvoices] and the count of the
    second as [numberOfCustomers], unformatted, and reads a missing count
    as 0. *)
Theorem fetchCardData_counts (formatCurrency : Z → string)
    (supabase : Supabase) (r1 r2 : Response Empty_set)
    (r3 : Response (list AmountStatus.t)) :
  supabase HeadOnly (fetchCardData_requests.1.1) = Fulfilled r1 →
  supabase HeadOnly (fetchCardData_requests.1.2) = Fulfilled r2 →
  supabase AmountStatusRows (fetchCardData_requests.2) = Fulfilled r3 →
  ∃ card,
    fetchCardData formatCurrency supabase = mkOutcome [] (inr card)
    ∧ CardData.numberOfInvoices card = default 0 (count r1)
    ∧ CardData.numberOfCustomers card = default 0 (count r2)
    ∧ (count r1 = None → CardData.numberOfInvoices card = 0)
    ∧ (count r2 = None → CardData.numberOfCustomers card = 0).
Proof.
  intros H1 H2 H3. rewrite (fetchCardData_fulfilled _ _ _ _ _ H1 H2 H3).
  eexists. split; [reflexivity|]. simpl.
  repeat split; by intros ->.
Qed.

Lemma fetchCardData_counts_witness :
  ∃ card,
    fetchCardData sample_format sample_client = mkOutcome [] (inr card)
    ∧ CardData.numberOfInvoices card = 8
    ∧ CardData.numberOfCustomers card = 3
    ∧ (Some 8 = None → CardData.numberOfInvoices card = 0)
    ∧ (Some 3 = None → CardData.numberOfCustomers card = 0).
Proof.
  exact (fetchCardData_counts sample_format sample_client
           (mkResponse None None (Some 8)) (mkResponse None None (Some 3))
           (mkResponse (Some (as_amount_status <$> sample_invoices))
                       None None)
           eq_refl eq_refl eq_refl).
Defined.

Lemma Zsum_Permutation (l k : list Z) : l ≡ₚ k → Zsum l = Zsum k.
Proof. unfold Zsum. induction 1; simpl; lia. Qed.

Lemma filter_within {A} (P Q : A → Prop) `{!∀ x, Decision (P x)}
    `{!∀ x, Decision (Q x)} (l : list A) :
  (∀ x, P x → Q x) → filter P (filter Q l) = filter P l.
Proof.
  intros HPQ. induction l as [|x l IH]; [done|].
  rewrite !filter_cons. destruct (decide (Q x)) as [HQ|HQ].
  - rewrite filter_cons. destruct (decide (P x)); by rewrite IH.
  - rewrite IH. destruct (decide (P x)) as [HP|]; [|done].
    exfalso. apply HQ, HPQ, HP.
Qed.

Lemma status_sum_counted (status : string)
    (rows rows' : list AmountStatus.t) :
  counted status →
  filter (λ inv, counted (AmountStatus.status inv)) rows
    ≡ₚ filter (λ inv, counted (AmountStatus.status inv)) rows' →
  Zsum (AmountStatus.amount <$>
          filter (λ inv, AmountStatus.status inv = status) rows)
  = Zsum (AmountStatus.amount <$>
            filter (λ inv, AmountStatus.status inv = status) rows').
Proof.
  intros Hs Hperm.
  rewrite <-(filter_within (λ inv, AmountStatus.status inv = status)
               (λ inv, counted (AmountStatus.status inv)) rows)
    by (by intros x ->).
  rewrite <-(filter_within (λ inv, AmountStatus.status inv = status)
               (λ inv, counted (AmountStatus.status inv)) rows')
    by (by intros x ->).
  apply Zsum_Permutation, fmap_Permutation. by rewrite Hperm.
Qed.

(** X6.  The totals of [fetchCardData] depend on the rows it reads only
    through the rows whose status is exactly "paid" or "pending", and not on
    their order: two answers whose rows of those two statuses are the same
    up to order give the same two totals.  A row of any other status
    (another spelling included) adds to neither. *)
Theorem fetchCardData_totals_invariant (formatCurrency : Z → string)
    (supabase supabase' : Supabase) (r1 r2 r1' r2' : Response Empty_set)
    (rows rows' : list AmountStatus.t) (e e' : option PostgrestError.t)
    (c c' : option Z) :
  supabase HeadOnly (fetchCardData_requests.1.1) = Fulfilled r1 →
  supabase HeadOnly (fetchCardData_requests.1.2) = Fulfilled r2 →
  supabase AmountStatusRows (fetchCardData_requests.2)
    = Fulfilled (mkResponse (Some rows) e c) →
  supabase' HeadOnly (fetchCardData_requests.1.1) = Fulfilled r1' →
  supabase' HeadOnly (fetchCardData_requests.1.2) = Fulfilled r2' →
  supabase' AmountStatusRows (fetchCardData_requests.2)
    = Fulfilled (mkResponse (Some rows') e' c') →
  filter (λ inv, counted (AmountStatus.status inv)) rows
    ≡ₚ filter (λ inv, counted (AmountStatus.status inv)) rows' →
  ∃ card card',
    fetchCardData formatCurrency supabase = mkOutcome [] (inr card)
    ∧ fetchCardData formatCurrency supabase' = mkOutcome [] (inr card')
    ∧ CardData.totalPaidInvoices card = CardData.totalPaidInvoices card'
    ∧ CardData.totalPendingInvoices card
      = CardData.totalPendingInvoices card'.
Proof.
  intros H1 H2 H3 H1' H2' H3' Hperm.
  rewrite (fetchCardData_fulfilled _ _ _ _ _ H1 H2 H3).
  rewrite (fetchCardData_fulfilled _ _ _ _ _ H1' H2' H3').
  do 2 eexists. split; [reflexivity|]. split; [reflexivity|]. simpl.
  split; f_equal; apply status_sum_counted; try done; [by left|by right].
Qed.

Lemma fetchCardData_totals_invariant_witness :
  ∃ card card',
    fetchCardData sample_format (reference match_all match_all scenario_db)
      = mkOutcome [] (inr card)
    ∧ fetchCardData sample_format
        (reference match_all match_all scenario_db_overdue)
      = mkOutcome [] (inr card')
    ∧ CardData.totalPaidInvoices card = CardData.totalPaidInvoices card'
    ∧ CardData.totalPendingInvoices card
      = CardData.totalPendingInvoices card'.
Proof.
  exact (fetchCardData_totals_invariant sample_format
           (reference match_all match_all scenario_db)
           (reference match_all match_all scenario_db_overdue)
           (mkResponse None None (Some 3)) (mkResponse None None (Some 0))
           (mkResponse None None (Some 5)) (mkResponse None None (Some 0))
           (as_amount_status <$> Database.invoices scenario_db)
           (as_amount_status <$> Database.invoices scenario_db_overdue)
           None None None None
           eq_refl eq_refl eq_refl eq_refl eq_refl eq_refl
           (Permutation_sym
              (reverse_Permutation
                 (as_amount_status <$> Database.invoices scenario_db)))).
Defined.

(** ** More on [fetchFilteredCustomers] *)

Lemma paid_and_pending_sum {A} (status : A → string) (amount : A → Z)
    (l : list A) :
  Zsum (amount <$> filter (λ inv, status inv = "paid") l)
  + Zsum (amount <$> filter (λ inv, status inv = "pending") l)
  = Zsum (amount <$> filter (λ inv, counted (status inv)) l).
Proof.
  induction l as [|x l IH]; [done|].
  rewrite !filter_cons.
  destruct (decide (status x = "paid")) as [Hp|Hp],
           (decide (status x = "pending")) as [Hq|Hq],
           (decide (counted (status x))) as [Hc|Hc];
    rewrite ?fmap_cons, ?Zsum_cons; try lia; exfalso;
    first [ congruence
          | by apply Hc; left
          | by apply Hc; right
          | by destruct Hc ].
Qed.

Lemma filter_all {A} (P : A → Prop) `{!∀ x, Decision (P x)} (l : list A) :
  Forall P l → filter P l = l.
Proof.
  induction 1 as [|x l Hx _ IH]; [done|].
  by rewrite filter_cons, decide_True, IH.
Qed.

(** X7.  For every customer [fetchFilteredCustomers] returns, [total_paid]
    plus [total_pending] is the sum of the amounts of its invoices whose
    status is exactly "paid" or "pending" (all of its invoices when they all
    are); [total_invoices] counts every invoice whatever its status, is
    never negative, and when it is 0 both totals are 0. *)
Theorem fetchFilteredCustomers_totals_add_up (supabase : Supabase)
    (query : string) (rows : list CustomerRow.t) (c : option Z) :
  supabase CustomerRows (fetchFilteredCustomers_request query)
    = Fulfilled (mkResponse (Some rows) None c) →
  ∃ out,
    fetchFilteredCustomers supabase query = mkOutcome [] (inr out)
    ∧ Forall2 (λ customer o,
        let invoices := default [] (CustomerRow.invoices customer) in
        CustomersTableType.total_paid o + CustomersTableType.total_pending o
        = Zsum (InvoiceBrief.amount <$>
                  filter (λ inv, counted (InvoiceBrief.status inv)) invoices)
        ∧ (Forall (λ inv, counted (InvoiceBrief.status inv)) invoices →
           CustomersTableType.total_paid o
           + CustomersTableType.total_pending o
           = Zsum (InvoiceBrief.amount <$> invoices))
        ∧ 0 ≤ CustomersTableType.total_invoices o
        ∧ (CustomersTableType.total_invoices o = 0 →
           CustomersTableType.total_paid o = 0
           ∧ CustomersTableType.total_pending o = 0))
      rows out.
Proof.
  intros H. unfold fetchFilteredCustomers. rewrite H. simpl.
  eexists. split; [reflexivity|].
  apply Forall2_fmap_r, Forall_Forall2_diag, Forall_forall.
  intros customer _. simpl.
  destruct (CustomerRow.invoices customer) as [invoices|]; simpl.
  - rewrite !reduce_conditional_sum, !Z.add_0_l.
    rewrite <-(paid_and_pending_sum InvoiceBrief.status InvoiceBrief.amount).
    split; [lia|]. split; [|split; [lia|]].
    + intros Hall.
      rewrite (paid_and_pending_sum InvoiceBrief.status InvoiceBrief.amount).
      by rewrite filter_all.
    + intros H0. destruct invoices; [done|]. simpl in H0. lia.
  - repeat split; done.
Qed.

Lemma fetchFilteredCustomers_totals_add_up_witness :
  ∃ out,
    fetchFilteredCustomers sample_client "" = mkOutcome [] (inr out)
    ∧ Forall2 (λ customer o,
        let invoices := default [] (CustomerRow.invoices customer) in
        CustomersTableType.total_paid o + CustomersTableType.total_pending o
        = Zsum (InvoiceBrief.amount <$>
                  filter (λ inv, counted (InvoiceBrief.status inv)) invoices)
        ∧ (Forall (λ inv, counted (InvoiceBrief.status inv)) invoices →
           CustomersTableType.total_paid o
           + CustomersTableType.total_pending o
           = Zsum (InvoiceBrief.amount <$> invoices))
        ∧ 0 ≤ CustomersTableType.total_invoices o
        ∧ (CustomersTableType.total_invoices o = 0 →
           CustomersTableType.total_paid o = 0
           ∧ CustomersTableType.total_pending o = 0))
      sample_customers out.
Proof.
  exact (fetchFilteredCustomers_totals_add_up sample_client ""
           sample_customers None eq_refl).
Defined.

(** ** Responses without rows *)

(** X8.  [fetchRevenue] and [fetchCustomers] hand the rows of a response
    that carries no error to the caller as they are, in the client's order
    and unchecked: they log nothing, and when the response carries no rows
    either they return that absence instead of raising. *)
Theorem rows_passed_through (supabase : Supabase) :
  (∀ r, supabase RevenueRows fetchRevenue_request = Fulfilled r →
     error r = None →
     fetchRevenue supabase = mkOutcome [] (inr (data r)))
  ∧ (∀ r, supabase CustomerFields fetchCustomers_request = Fulfilled r →
       error r = None →
       fetchCustomers supabase = mkOutcome [] (inr (data r))).
Proof.
  split; intros [d err c] H He; simpl in He; subst err.
  - unfold fetchRevenue. by rewrite H.
  - unfold fetchCustomers. by rewrite H.
Qed.

Lemma rows_passed_through_witness :
  fetchRevenue empty_handed = mkOutcome [] (inr None)
  ∧ fetchCustomers sample_client
    = mkOutcome [] (inr (Some [ CustomerField.mk "c1" "Delba de Oliveira";
                                 CustomerField.mk "c2" "Lee Robinson";
                                 CustomerField.mk "c3" "Michael Novotny" ])).
Proof.
  split.
  - exact (proj1 (rows_passed_through empty_handed) _ eq_refl eq_refl).
  - exact (proj2 (rows_passed_through sample_client) _ eq_refl eq_refl).
Defined.

(** X9.  The four operations that read their rows do raise on a response
    that carries neither an error nor rows: [fetchLatestInvoices],
    [fetchFilteredInvoices], [fetchInvoiceById] and [fetchFilteredCustomers]
    then log one [TypeError] and raise their own message. *)
Theorem missing_rows_raise (supabase : Supabase) (query id : string)
    (currentPage : Z) :
  (∀ c, supabase LatestInvoiceRows fetchLatestInvoices_request
        = Fulfilled (mkResponse None None c) →
     ∃ message,
       fetchLatestInvoices supabase
       = mkOutcome [("Database Error:", TypeError message)]
                   (inl (Error "Failed to fetch the latest invoices.")))
  ∧ (∀ c, supabase InvoiceRows
            (fetchFilteredInvoices_request query currentPage)
          = Fulfilled (mkResponse None None c) →
       ∃ message,
         fetchFilteredInvoices supabase query currentPage
         = mkOutcome [("Database Error:", TypeError message)]
                     (inl (Error "Failed to fetch invoices.")))
  ∧ (∀ c, supabase SingleInvoice (fetchInvoiceById_request id)
          = Fulfilled (mkResponse None None c) →
       ∃ message,
         fetchInvoiceById supabase id
         = mkOutcome [("Database Error:", TypeError message)]
                     (inl (Error "Failed to fetch invoice.")))
  ∧ (∀ c, supabase CustomerRows (fetchFilteredCustomers_request query)
          = Fulfilled (mkResponse None None c) →
       ∃ message,
         fetchFilteredCustomers supabase query
         = mkOutcome [("Database Error:", TypeError message)]
                     (inl (Error "Failed to fetch customer table."))).
Proof.
  repeat split; intros c H; eexists.
  - unfold fetchLatestInvoices. by rewrite H.
  - unfold fetchFilteredInvoices. by rewrite H.
  - unfold fetchInvoiceById. by rewrite H.
  - unfold fetchFilteredCustomers. by rewrite H.
Qed.

Lemma missing_rows_raise_witness :
  (∃ message,
     fetchLatestInvoices empty_handed
     = mkOutcome [("Database Error:", TypeError message)]
                 (inl (Error "Failed to fetch the latest invoices.")))
  ∧ (∃ message,
       fetchInvoiceById empty_handed "i1"
       = mkOutcome [("Database Error:", TypeError message)]
                   (inl (Error "Failed to fetch invoice."))).
Proof.
  split.
  - exact (proj1 (missing_rows_raise empty_handed "" "i1" 1) None eq_refl).
  - exact (proj1 (proj2 (proj2 (missing_rows_raise empty_handed "" "i1" 1)))
             None eq_refl).
Defined.

(** ** More on [fetchInvoicesPages] *)

(** X10.  With a count that is missing or not negative, [fetchInvoicesPages]
    returns a number of pages that is not negative and is 0 exactly when the
    count is 0 or missing; one more matching row never gives fewer
    pages. *)
Theorem fetchInvoicesPages_none_iff_no_match (supabase : Supabase)
    (query : string) (d : option Empty_set) (c : option Z) :
  supabase HeadOnly (fetchInvoicesPages_request query)
    = Fulfilled (mkResponse d None c) →
  0 ≤ default 0 c →
  ∃ pages,
    fetchInvoicesPages supabase query = mkOutcome [] (inr pages)
    ∧ 0 ≤ pages
    ∧ (pages = 0 ↔ default 0 c = 0)
    ∧ pages ≤ Math_ceil (inject_Z (default 0 c + 1)
                         / inject_Z ITEMS_PER_PAGE).
Proof.
  intros H Hc. eexists. split.
  { unfold fetchInvoicesPages. rewrite H. reflexivity. }
  simpl.
  pose proof (Math_ceil_pages (default 0 c)) as H0.
  pose proof (Math_ceil_pages (default 0 c + 1)) as H1.
  simpl in H0, H1. repeat split; lia.
Qed.

Lemma fetchInvoicesPages_none_iff_no_match_witness :
  ∃ pages,
    fetchInvoicesPages empty_handed "lee" = mkOutcome [] (inr pages)
    ∧ 0 ≤ pages
    ∧ (pages = 0 ↔ 0 = 0)
    ∧ pages ≤ Math_ceil (inject_Z (0 + 1) / inject_Z ITEMS_PER_PAGE).
Proof.
  exact (fetchInvoicesPages_none_iff_no_match empty_handed "lee" None None
           eq_refl ltac:(done)).
Defined.

(** ** The filter expressions *)



(** ** All rows or none *)

Lemma mapM_inl {A B} (f : A → Exn B) (l : list A) (e : Thrown) :
  mapM f l = inl e → Exists (λ x, f x = inl e) l.
Proof.
  induction l as [|x l IH]; [discriminate|].
  rewrite mapM_cons. destruct (f x) as [e'|y] eqn:Hx; simpl.
  - intros [= ->]. by left.
  - destruct (mapM f l) as [e'|k]; simpl; [|discriminate].
    intros [= ->]. right. by apply IH.
Qed.

Lemma fetchFilteredInvoices_row_inl (invoice : InvoiceRow.t) (e : Thrown) :
  fetchFilteredInvoices_row invoice = inl e →
  InvoiceRow.customers invoice = [] ∧ ∃ message, e = TypeError message.
Proof.
  unfold fetchFilteredInvoices_row.
  destruct (InvoiceRow.customers invoice); simpl; [|discriminate].
  intros [= <-]. eauto.
Qed.

Lemma fetchLatestInvoices_row_inl (invoice : LatestInvoiceRow.t)
    (e : Thrown) :
  fetchLatestInvoices_row invoice = inl e →
  LatestInvoiceRow.customers invoice = [] ∧ ∃ message, e = TypeError message.
Proof.
  unfold fetchLatestInvoices_row.
  destruct (LatestInvoiceRow.customers invoice); simpl; [|discriminate].
  intros [= <-]. eauto.
Qed.

(** X12.  [fetchFilteredInvoices] returns all the rows of a response or
    none.  When every row carries a customer it returns one record per row,
    in the client's order, with the row's own fields copied and the name,
    email and image of the row's first customer.  When some row carries no
    customer it returns nothing, not even the rows before that one: it logs
    one [TypeError] and raises its own message. *)
Theorem fetchFilteredInvoices_all_or_nothing (supabase : Supabase)
    (query : string) (currentPage : Z) (rows : list InvoiceRow.t)
    (c : option Z) :
  supabase InvoiceRows (fetchFilteredInvoices_request query currentPage)
    = Fulfilled (mkResponse (Some rows) None c) →
  (Forall (λ invoice, InvoiceRow.customers invoice ≠ []) rows
   ∧ ∃ out,
       fetchFilteredInvoices supabase query currentPage
       = mkOutcome [] (inr out)
       ∧ Forall2 (λ invoice o,
           ∃ customer rest,
             InvoiceRow.customers invoice = customer :: rest
             ∧ o = InvoicesTable.mk
                     (InvoiceRow.id invoice) (InvoiceRow.customer_id invoice)
                     (InvoiceRow.amount invoice) (InvoiceRow.date invoice)
                     (InvoiceRow.status invoice) (CustomerInfo.name customer)
                     (CustomerInfo.email customer)
                     (CustomerInfo.image_url customer))
           rows out)
  ∨ (Exists (λ invoice, InvoiceRow.customers invoice = []) rows
     ∧ ∃ message,
         fetchFilteredInvoices supabase query currentPage
         = mkOutcome [("Database Error:", TypeError message)]
                     (inl (Error "Failed to fetch invoices."))).
Proof.
  intros H. rewrite (fetchFilteredInvoices_fulfilled _ _ _ _ _ H).
  destruct (mapM fetchFilteredInvoices_row rows) as [e|out] eqn:Hm.
  - right. apply mapM_inl in Hm.
    assert (∃ message, e = TypeError message) as [message ->].
    { apply Exists_exists in Hm as (x & _ & Hx).
      by apply fetchFilteredInvoices_row_inl in Hx as [_ ?]. }
    split; [|by exists message].
    eapply Exists_impl; [exact Hm|]. intros x Hx.
    by apply fetchFilteredInvoices_row_inl in Hx as [? _].
  - left. split.
    + assert (Hd : ∃ k, mapM fetchFilteredInvoices_row rows = inr k) by eauto.
      apply mapM_defined in Hd. eapply Forall_impl; [exact Hd|].
      intros x. apply fetchFilteredInvoices_row_defined.
    + exists out. split; [done|]. apply mapM_inr in Hm.
      eapply Forall2_impl; [exact Hm|]. intros x y Hxy.
      apply fetchFilteredInvoices_row_inr in Hxy as (customer & Hc & ->).
      destruct (InvoiceRow.customers x) as [|c0 rest]; [done|].
      simpl in Hc. injection Hc as ->. by exists customer, rest.
Qed.

Lemma fetchFilteredInvoices_all_or_nothing_witness :
  (Forall (λ invoice, InvoiceRow.customers invoice ≠ []) sample_invoices
   ∧ ∃ out,
       fetchFilteredInvoices lenient "" 1 = mkOutcome [] (inr out)
       ∧ Forall2 (λ invoice o,
           ∃ customer rest,
             InvoiceRow.customers invoice = customer :: rest
             ∧ o = InvoicesTable.mk
                     (InvoiceRow.id invoice) (InvoiceRow.customer_id invoice)
                     (InvoiceRow.amount invoice) (InvoiceRow.date invoice)
                     (InvoiceRow.status invoice) (CustomerInfo.name customer)
                     (CustomerInfo.email customer)
                     (CustomerInfo.image_url customer))
           sample_invoices out)
  ∨ (Exists (λ invoice, InvoiceRow.customers invoice = []) sample_invoices
     ∧ ∃ message,
         fetchFilteredInvoices lenient "" 1
         = mkOutcome [("Database Error:", TypeError message)]
                     (inl (Error "Failed to fetch invoices."))).
Proof.
  exact (fetchFilteredInvoices_all_or_nothing lenient "" 1 sample_invoices
           None eq_refl).
Defined.

(** X13.  [fetchLatestInvoices] returns all the rows of a response or none.
    When every row carries a customer it returns one record per row, in the
    client's order, with the row's id and amount and the name, email and
    image of the row's first customer.  When some row carries no customer it
    returns nothing: it logs one [TypeError] and raises its own message. *)
Theorem fetchLatestInvoices_all_or_nothing (supabase : Supabase)
    (rows : list LatestInvoiceRow.t) (c : option Z) :
  supabase LatestInvoiceRows fetchLatestInvoices_request
    = Fulfilled (mkResponse (Some rows) None c) →
  (Forall (λ invoice, LatestInvoiceRow.customers invoice ≠ []) rows
   ∧ ∃ out,
       fetchLatestInvoices supabase = mkOutcome [] (inr out)
       ∧ Forall2 (λ invoice o,
           ∃ customer rest,
             LatestInvoiceRow.customers invoice = customer :: rest
             ∧ o = LatestInvoiceRaw.mk
                     (LatestInvoiceRow.id invoice)
                     (LatestInvoiceRow.amount invoice)
                     (CustomerInfo.name customer)
                     (CustomerInfo.email customer)
                     (CustomerInfo.image_url customer))
           rows out)
  ∨ (Exists (λ invoice, LatestInvoiceRow.customers invoice = []) rows
     ∧ ∃ message,
         fetchLatestInvoices supabase
         = mkOutcome [("Database Error:", TypeError message)]
                     (inl (Error "Failed to fetch the latest invoices."))).
Proof.
  intros H. rewrite (fetchLatestInvoices_fulfilled _ _ _ H).
  destruct (mapM fetchLatestInvoices_row rows) as [e|out] eqn:Hm.
  - right. apply mapM_inl in Hm.
    assert (∃ message, e = TypeError message) as [message ->].
    { apply Exists_exists in Hm as (x & _ & Hx).
      by apply fetchLatestInvoices_row_inl in Hx as [_ ?]. }
    split; [|by exists message].
    eapply Exists_impl; [exact Hm|]. intros x Hx.
    by apply fetchLatestInvoices_row_inl in Hx as [? _].
  - left. split.
    + assert (Hd : ∃ k, mapM fetchLatestInvoices_row rows = inr k) by eauto.
      apply mapM_defined in Hd. eapply Forall_impl; [exact Hd|].
      intros x. apply fetchLatestInvoices_row_defined.
    + exists out. split; [done|]. apply mapM_inr in Hm.
      eapply Forall2_impl; [exact Hm|]. intros x y Hxy.
      apply fetchLatestInvoices_row_inr in Hxy as (customer & Hc & ->).
      destruct (LatestInvoiceRow.customers x) as [|c0 rest]; [done|].
      simpl in Hc. injection Hc as ->. by exists customer, rest.
Qed.

Lemma fetchLatestInvoices_all_or_nothing_witness :
  let rows :=
    as_latest <$>
      [ sample_invoice "i2" 5000 "2023-03-01" "pending";
        sample_invoice "i7" 44 "2023-02-04" "pending";
        sample_invoice "i6" 3 "2023-02-03" "paid";
        sample_invoice "i5" 250 "2023-02-02" "pending";
        sample_invoice "i4" 1599 "2023-02-01" "paid" ] in
  (Forall (λ invoice, LatestInvoiceRow.customers invoice ≠ []) rows
   ∧ ∃ out,
       fetchLatestInvoices sample_client = mkOutcome [] (inr out)
       ∧ Forall2 (λ invoice o,
           ∃ customer rest,
             LatestInvoiceRow.customers invoice = customer :: rest
             ∧ o = LatestInvoiceRaw.mk
                     (LatestInvoiceRow.id invoice)
                     (LatestInvoiceRow.amount invoice)
                     (CustomerInfo.name customer)
                     (CustomerInfo.email customer)
                     (CustomerInfo.image_url customer))
           rows out)
  ∨ (Exists (λ invoice, LatestInvoiceRow.customers invoice = []) rows
     ∧ ∃ message,
         fetchLatestInvoices sample_client
         = mkOutcome [("Database Error:", TypeError message)]
                     (inl (Error "Failed to fetch the latest invoices."))).
Proof.
  exact (fetchLatestInvoices_all_or_nothing sample_client _ None eq_refl).
Defined.

(** ** Pages over the reference client *)

Lemma mapM_take_drop {A B} (f : A → Exn B) (l : list A) (k : list B)
    (n m : nat) :
  mapM f l = inr k → mapM f (take n (drop m l)) = inr (take n (drop m k)).
Proof.
  rewrite !mapM_inr. intros H. by apply Forall2_take, Forall2_drop.
Qed.

Section Pagination.

Variable invoice_matches : string → InvoiceRow.t → bool.
Variable customer_matches : string → CustomerRow.t → bool.
Variable db : Database.t.

#[local] Abbreviation client :=
  (reference invoice_matches customer_matches db).

(** One listing serves every page: the matching invoices in descending
    order of date, each mapped to its record. *)
Lemma reference_listing (query : string) :
  Forall (λ invoice, InvoiceRow.customers invoice ≠ [])
         (Database.invoices db) →
  ∃ filters sorted listing,
    Query.or_filter (fetchInvoicesPages_request query) = Some filters
    ∧ sorted ≡ₚ filter (λ row, invoice_matches filters row)
                       (Database.invoices db)
    ∧ StronglySorted (date_descending InvoiceRow.date) sorted
    ∧ mapM fetchFilteredInvoices_row sorted = inr listing
    ∧ ∀ currentPage, 1 ≤ currentPage →
        fetchFilteredInvoices client query currentPage
        = mkOutcome [] (inr (take 6 (drop (Z.to_nat ((currentPage - 1) * 6))
                                          listing))).
Proof.
  intros Hc.
  destruct (reference_count invoice_matches customer_matches db query)
    as (filters & Hf & _).
  set (sorted := arrange InvoiceRow_column
                   (fetchFilteredInvoices_request query 1)
                   (filter (λ row, invoice_matches filters row)
                           (Database.invoices db))).
  assert (Hperm : sorted ≡ₚ filter (λ row, invoice_matches filters row)
                                   (Database.invoices db))
    by apply arrange_Permutation.
  assert (∃ listing, mapM fetchFilteredInvoices_row sorted = inr listing)
    as [listing Hl].
  { apply mapM_defined, Forall_forall. intros x Hx.
    apply fetchFilteredInvoices_row_defined.
    rewrite Hperm in Hx. apply list_elem_of_filter in Hx as [_ Hx].
    by eapply Forall_forall in Hc. }
  exists filters, sorted, listing.
  split; [exact Hf|]. split; [exact Hperm|]. split.
  { apply by_date_descending. by apply arrange_sorted. }
  split; [exact Hl|]. intros currentPage Hp.
  assert (Hresp :
    client InvoiceRows (fetchFilteredInvoices_request query currentPage)
    = Fulfilled (mkResponse
        (Some (take 6 (drop (Z.to_nat ((currentPage - 1) * 6)) sorted)))
        None None)).
  { pose proof (fetchFilteredInvoices_request_range query currentPage) as Hr.
    unfold reference, answer_invoices. f_equal.
    rewrite answer_in_range.
    2:{ intros from to. rewrite Hr. intros [= <- _]. lia. }
    rewrite (restrict_or_only _ _ _ _ filters);
      [|by rewrite <-same_filter|reflexivity].
    rewrite (window_range _ _ _ _ Hr eq_refl).
    replace (Z.to_nat ((currentPage - 1) * 6 + 5 + 1 - (currentPage - 1) * 6))
      with 6%nat by lia.
    reflexivity. }
  rewrite (fetchFilteredInvoices_fulfilled _ _ _ _ _ Hresp).
  by rewrite (mapM_take_drop _ _ _ _ _ Hl).
Qed.

(** X15.  Over the reference client, with every stored invoice carrying its
    customer, the page count of [fetchInvoicesPages] is the number of the
    last page that holds a row: [fetchFilteredInvoices] returns an empty
    page exactly for the pages after it. *)
Theorem page_empty_iff_beyond_last (query : string) (currentPage : Z) :
  1 ≤ currentPage →
  Forall (λ invoice, InvoiceRow.customers invoice ≠ [])
         (Database.invoices db) →
  ∃ pages rows,
    fetchInvoicesPages client query = mkOutcome [] (inr pages)
    ∧ fetchFilteredInvoices client query currentPage
      = mkOutcome [] (inr rows)
    ∧ (rows = [] ↔ pages < currentPage).
Proof.
  intros Hp Hc.
  destruct (reference_listing query Hc)
    as (filters & sorted & listing & Hf & Hperm & _ & Hl & Hpages).
  destruct (reference_count invoice_matches customer_matches db query)
    as (filters' & Hf' & Hresp).
  rewrite Hf in Hf'. injection Hf' as <-.
  exists (Math_ceil (inject_Z (totalMatches invoice_matches db filters)
                     / inject_Z ITEMS_PER_PAGE)).
  eexists. split.
  { unfold fetchInvoicesPages. rewrite Hresp. reflexivity. }
  split; [by apply Hpages|].
  pose proof (Math_ceil_pages (totalMatches invoice_matches db filters)) as Hm.
  cbv zeta in Hm. set (pages := Math_ceil _) in *.
  assert (Hn : Z.of_nat (length listing)
               = totalMatches invoice_matches db filters).
  { apply mapM_inr in Hl. unfold totalMatches.
    by rewrite <-(Forall2_length _ _ _ Hl), (Permutation_length Hperm). }
  rewrite <-length_zero_iff_nil, length_take, length_drop. lia.
Qed.

End Pagination.

Lemma page_empty_iff_beyond_last_witness :
  ∃ pages rows,
    fetchInvoicesPages sample_client "" = mkOutcome [] (inr pages)
    ∧ fetchFilteredInvoices sample_client "" 3 = mkOutcome [] (inr rows)
    ∧ (rows = [] ↔ pages < 3).
Proof.
  exact (page_empty_iff_beyond_last match_all match_all sample_db "" 3
           ltac:(lia) sample_invoices_joined).
Defined.

(** ** Ranges of consecutive pages *)

(** X16.  For every integer page, the range [fetchFilteredInvoices]
    requests spans 6 positions, and the range of the next page starts right
    after it: consecutive pages request adjacent ranges that do not
    overlap. *)
Theorem consecutive_pages_adjacent (query : string) (currentPage : Z) :
  ∃ from to from' to',
    Query.range_of (fetchFilteredInvoices_request query currentPage)
      = Some (from, to)
    ∧ Query.range_of (fetchFilteredInvoices_request query (currentPage + 1))
      = Some (from', to')
    ∧ to - from + 1 = ITEMS_PER_PAGE
    ∧ from' = to + 1
    ∧ from = ITEMS_PER_PAGE * (currentPage - 1).
Proof.
  do 4 eexists. rewrite !fetchFilteredInvoices_request_range.
  split; [reflexivity|]. split; [reflexivity|].
  unfold ITEMS_PER_PAGE. lia.
Qed.

(** X17.  When the client counts [total > 0] matching invoices,
    the page count [fetchInvoicesPages] returns is the last page whose
    requested range starts below [total]: the range of that page starts
    below the count, and the range of the page after it starts at or beyond
    the count. *)
Theorem last_page_range_within_count (supabase : Supabase) (query : string)
    (total : Z) :
  supabase HeadOnly (fetchInvoicesPages_request query)
    = Fulfilled (mkResponse None None (Some total)) →
  0 < total →
  ∃ pages from to from' to',
    fetchInvoicesPages supabase query = mkOutcome [] (inr pages)
    ∧ 1 ≤ pages
    ∧ Query.range_of (fetchFilteredInvoices_request query pages)
      = Some (from, to)
    ∧ Query.range_of (fetchFilteredInvoices_request query (pages + 1))
      = Some (from', to')
    ∧ 0 ≤ from < total
    ∧ total ≤ from'.
Proof.
  intros H Ht.
  exists (Math_ceil (inject_Z total / inject_Z ITEMS_PER_PAGE)).
  do 4 eexists. split.
  { unfold fetchInvoicesPages. rewrite H. reflexivity. }
  rewrite !fetchFilteredInvoices_request_range.
  pose proof (Math_ceil_pages total) as Hm. cbv zeta in Hm.
  set (pages := Math_ceil _) in *.
  split; [lia|]. split; [reflexivity|]. split; [reflexivity|]. lia.
Qed.

Lemma last_page_range_within_count_witness :
  ∃ pages from to from' to',
    fetchInvoicesPages sample_client "" = mkOutcome [] (inr pages)
    ∧ 1 ≤ pages
    ∧ Query.range_of (fetchFilteredInvoices_request "" pages)
      = Some (from, to)
    ∧ Query.range_of (fetchFilteredInvoices_request "" (pages + 1))
      = Some (from', to')
    ∧ 0 ≤ from < 8
    ∧ 8 ≤ from'.
Proof.
  exact (last_page_range_within_count sample_client "" 8 eq_refl
           ltac:(lia)).
Defined.

(** ** Pages of one listing *)

Lemma same_date_same_row (matching : list InvoiceRow.t)
    (x y : InvoiceRow.t) :
  NoDup (InvoiceRow.date <$> matching) →
  x ∈ matching → y ∈ matching →
  InvoiceRow.date x = InvoiceRow.date y → x = y.
Proof.
  induction matching as [|z l IH]; [by intros _ ?%elem_of_nil|].
  rewrite fmap_cons, NoDup_cons, !elem_of_cons.
  intros [Hz Hl] [->|Hx] [->|Hy] Hd; [done| | |by apply IH].
  - destruct Hz. rewrite Hd. by apply list_elem_of_fmap_2.
  - destruct Hz. rewrite <-Hd. by apply list_elem_of_fmap_2.
Qed.

(** With pairwise distinct dates, the descending order of date leaves one
    arrangement only. *)
Lemma one_arrangement (matching sorted sorted' : list InvoiceRow.t) :
  NoDup (InvoiceRow.date <$> matching) →
  sorted ≡ₚ matching → sorted' ≡ₚ matching →
  StronglySorted (date_descending InvoiceRow.date) sorted →
  StronglySorted (date_descending InvoiceRow.date) sorted' →
  sorted = sorted'.
Proof.
  intros Hnd Hp Hp' Hs Hs'.
  apply (StronglySorted_unique_strong (date_descending InvoiceRow.date));
    [|done|done|by rewrite Hp, Hp'].
  intros x y Hx Hy Hxy Hyx. rewrite Hp in Hx. rewrite Hp' in Hy.
  apply (same_date_same_row matching); [done..|].
  unfold date_descending in *. by apply (anti_symm String.le).
Qed.

(** The reference client answers the page requests as the spec asks. *)
Lemma reference_answers_pages (invoice_matches : string → InvoiceRow.t → bool)
    (customer_matches : string → CustomerRow.t → bool) (db : Database.t)
    (query filters : string) :
  Query.or_filter (fetchInvoicesPages_request query) = Some filters →
  answers_pages (reference invoice_matches customer_matches db) query
    (filter (λ row, invoice_matches filters row) (Database.invoices db)).
Proof.
  intros Hf currentPage Hp.
  destruct (reference_page invoice_matches customer_matches db query
              currentPage Hp)
    as (filters' & sorted & Hf' & Hperm & Hsorted & Hresp).
  rewrite <-same_filter, Hf in Hf'. injection Hf' as <-.
  by exists sorted.
Qed.

Lemma sample_client_answers_pages :
  answers_pages sample_client "" sample_invoices.
Proof.
  exact (reference_answers_pages match_all match_all sample_db "" _ eq_refl).
Qed.

Lemma sample_dates_distinct :
  NoDup (InvoiceRow.date <$> sample_invoices).
Proof. apply (bool_decide_unpack _). by vm_compute. Qed.

(** X14.  For any client that answers each page request of a query as the
    spec asks (the window of that page in some arrangement of the matching
    invoices in descending order of date), when the matching invoices have
    pairwise distinct dates and each carries its customer, the pages of
    [fetchFilteredInvoices] are the consecutive windows of 6 of one listing:
    the matching invoices, each exactly once, in descending order of date.
    The operation orders by date alone; the distinct dates are what makes
    the listing the same for every page. *)
Theorem pages_tile_the_matches (supabase : Supabase) (query : string)
    (matching : list InvoiceRow.t) :
  answers_pages supabase query matching →
  NoDup (InvoiceRow.date <$> matching) →
  Forall (λ invoice, InvoiceRow.customers invoice ≠ []) matching →
  ∃ listing,
    InvoicesTable.id <$> listing ≡ₚ InvoiceRow.id <$> matching
    ∧ length listing = length matching
    ∧ StronglySorted (date_descending InvoicesTable.date) listing
    ∧ ∀ currentPage, 1 ≤ currentPage →
        fetchFilteredInvoices supabase query currentPage
        = mkOutcome [] (inr (take 6 (drop (Z.to_nat ((currentPage - 1) * 6))
                                          listing))).
Proof.
  intros Hans Hnd Hc.
  destruct (Hans 1 ltac:(lia)) as (sorted & Hperm & Hsorted & _).
  assert (∃ listing, mapM fetchFilteredInvoices_row sorted = inr listing)
    as [listing Hl].
  { apply mapM_defined, Forall_forall. intros x Hx.
    apply fetchFilteredInvoices_row_defined.
    rewrite Hperm in Hx. by eapply Forall_forall in Hc. }
  exists listing.
  assert (Hl2 := Hl). apply mapM_inr in Hl2.
  assert (Hrows : Forall2 (λ x y, InvoiceRow.id x = InvoicesTable.id y
                                  ∧ InvoiceRow.date x = InvoicesTable.date y)
                          sorted listing).
  { eapply Forall2_impl; [exact Hl2|]. intros x y Hxy.
    by apply fetchFilteredInvoices_row_inr in Hxy as (? & _ & ->). }
  assert (Hid : InvoiceRow.id <$> sorted = InvoicesTable.id <$> listing).
  { apply Forall2_same_dates. eapply Forall2_impl; [exact Hrows|].
    by intros x y [? _]. }
  split; [by rewrite <-Hid, Hperm|].
  split.
  { by rewrite <-(Forall2_length _ _ _ Hl2), (Permutation_length Hperm). }
  split.
  { apply date_descending_fmap.
    erewrite <-(Forall2_same_dates InvoiceRow.date InvoicesTable.date sorted).
    - by apply (proj1 (date_descending_fmap InvoiceRow.date sorted)).
    - eapply Forall2_impl; [exact Hrows|]. by intros x y [_ ?]. }
  intros currentPage Hp.
  destruct (Hans currentPage Hp) as (sorted' & Hperm' & Hsorted' & Hresp).
  rewrite <-(one_arrangement matching sorted sorted') in Hresp by done.
  rewrite (fetchFilteredInvoices_fulfilled _ _ _ _ _ Hresp).
  by rewrite (mapM_take_drop _ _ _ _ _ Hl).
Qed.

Lemma pages_tile_the_matches_witness :
  ∃ listing,
    InvoicesTable.id <$> listing ≡ₚ InvoiceRow.id <$> sample_invoices
    ∧ length listing = length sample_invoices
    ∧ StronglySorted (date_descending InvoicesTable.date) listing
    ∧ ∀ currentPage, 1 ≤ currentPage →
        fetchFilteredInvoices sample_client "" currentPage
        = mkOutcome [] (inr (take 6 (drop (Z.to_nat ((currentPage - 1) * 6))
                                          listing))).
Proof.
  exact (pages_tile_the_matches sample_client "" sample_invoices
           sample_client_answers_pages sample_dates_distinct
           sample_invoices_joined).
Defined.

(** Without distinct dates the pages need not tile: [tie_client] answers
    every page request as the spec asks, yet invoice "a1" comes back on
    page 1 and again on page 2, and "a7" on no page. *)
Example pages_with_equal_dates :
  answers_pages tie_client "" tie_invoices
  ∧ sum_map id (fmap InvoicesTable.id)
      (result (fetchFilteredInvoices tie_client "" 1))
    = inr ["a1"; "a2"; "a3"; "a4"; "a5"; "a6"]
  ∧ sum_map id (fmap InvoicesTable.id)
      (result (fetchFilteredInvoices tie_client "" 2))
    = inr ["a1"]
  ∧ ∀ currentPage, 3 ≤ currentPage →
      result (fetchFilteredInvoices tie_client "" currentPage) = inr [].
Proof.
  assert (Hpage : ∀ currentPage, 2 ≤ currentPage →
    tie_client InvoiceRows (fetchFilteredInvoices_request "" currentPage)
    = Fulfilled (mkResponse
        (Some (take 6 (drop (Z.to_nat ((currentPage - 1) * 6))
                            (reverse tie_invoices))))
        None None)).
  { intros currentPage Hp. unfold tie_client.
    rewrite fetchFilteredInvoices_request_range.
    rewrite decide_False by lia. do 3 f_equal.
    f_equal. lia. }
  split; [|split; [by vm_compute|split; [by vm_compute|]]].
  - intros currentPage Hp. destruct (decide (currentPage = 1)) as [->|Hne].
    + exists tie_invoices. split; [done|]. split; [|reflexivity].
      apply (bool_decide_unpack _). by vm_compute.
    + exists (reverse tie_invoices). split; [apply reverse_Permutation|].
      split; [|apply Hpage; lia].
      apply (bool_decide_unpack _). by vm_compute.
  - intros currentPage Hp.
    rewrite (fetchFilteredInvoices_fulfilled _ _ _ _ _
               (Hpage currentPage ltac:(lia))).
    rewrite drop_ge; [done|].
    rewrite length_reverse. change (length tie_invoices) with 7%nat. lia.
Qed.
